(** * Remote array handle of python-blosc2: [src/blosc2/c2array.py]

    A shallow embedding of the module: the slice encoder
    [slice_to_string], the HTTP helpers [_xget], [get], [fetch_data] and
    the class [C2Array], followed by the properties that the
    specification states about them.

    Python values are embedded as an inductive type, Python exceptions as
    the [Raise] branch of a result type, dictionaries as [gmap]s, and the
    network as an explicit log of the requests that were issued. *)

From Stdlib Require Import ZArith String Ascii List Bool Decimal DecimalString.
From Stdlib Require Import DecimalPos DecimalZ.
From stdpp Require Import base gmap strings list fin_maps.
Import ListNotations.

Set Warnings "-register-all".
Set Default Proof Using "Type".

Open Scope Z_scope.

(** ** Python objects that can occur in an index expression *)

(** [int], [bool] (a subclass of [int]), [None], [Ellipsis], [slice]
    objects and tuples.  The three attributes of a slice are arbitrary
    objects, as in Python. *)
Inductive pyobj : Type :=
| PyNone
| PyInt (n : Z)
| PyBool (b : bool)
| PyEllipsis
| PySlice (start stop step : pyobj)
| PyTuple (items : list pyobj).

(** [slice(None)] and [slice(a, b)]. *)
Definition slice_None : pyobj := PySlice PyNone PyNone PyNone.
Definition slice2 (a b : pyobj) : pyobj := PySlice a b PyNone.

(** Python's [a == b].  Numbers compare by value ([True == 1]); slices
    compare as the triples of their attributes; tuples compare
    elementwise; objects of unrelated types are unequal. *)
Fixpoint py_eq (a b : pyobj) {struct a} : bool :=
  match a, b with
  | PyNone, PyNone => true
  | PyEllipsis, PyEllipsis => true
  | PyInt x, PyInt y => x =? y
  | PyInt x, PyBool y => x =? (if y then 1 else 0)
  | PyBool x, PyInt y => (if x then 1 else 0) =? y
  | PyBool x, PyBool y => Bool.eqb x y
  | PySlice a1 a2 a3, PySlice b1 b2 b3 =>
      py_eq a1 b1 && py_eq a2 b2 && py_eq a3 b3
  | PyTuple xs, PyTuple ys =>
      (fix all2 (xs ys : list pyobj) {struct xs} : bool :=
         match xs, ys with
         | [], [] => true
         | x :: xs', y :: ys' => py_eq x y && all2 xs' ys'
         | _, _ => false
         end) xs ys
  | _, _ => false
  end.

(** Python's [x in (e1, ..., en)]. *)
Definition py_in (x : pyobj) (candidates : list pyobj) : bool :=
  existsb (py_eq x) candidates.

(** Python's truth value of an object. *)
Definition py_truthy (o : pyobj) : bool :=
  match o with
  | PyNone => false
  | PyInt n => negb (n =? 0)
  | PyBool b => b
  | PyEllipsis => true
  | PySlice _ _ _ => true
  | PyTuple items => match items with [] => false | _ => true end
  end.

(** [isinstance(o, int)], [isinstance(o, slice)], [isinstance(o, tuple)]. *)
Definition isinstance_int (o : pyobj) : bool :=
  match o with PyInt _ | PyBool _ => true | _ => false end.
Definition isinstance_slice (o : pyobj) : bool :=
  match o with PySlice _ _ _ => true | _ => false end.
Definition isinstance_tuple (o : pyobj) : bool :=
  match o with PyTuple _ => true | _ => false end.

(** ** Exceptions *)

(** The exception classes that matter here, with their place in Python's
    hierarchy; [Derived name base] is any other class, declared as a
    subclass of [base]. *)
Inductive exn_class : Type :=
| Exception
| LookupError
| IndexError
| KeyError
| ValueError
| RuntimeError
| TypeError
| Derived (name : string) (base : exn_class).

Fixpoint exn_class_eqb (c d : exn_class) : bool :=
  match c, d with
  | Exception, Exception | LookupError, LookupError
  | IndexError, IndexError | KeyError, KeyError
  | ValueError, ValueError | RuntimeError, RuntimeError
  | TypeError, TypeError => true
  | Derived n b, Derived n' b' => String.eqb n n' && exn_class_eqb b b'
  | _, _ => false
  end.

(** [issubclass(c, target)]. *)
Fixpoint issubclass (c target : exn_class) : bool :=
  exn_class_eqb c target ||
  match c with
  | Exception => false
  | LookupError | ValueError | RuntimeError | TypeError =>
      exn_class_eqb Exception target
  | IndexError | KeyError =>
      exn_class_eqb LookupError target || exn_class_eqb Exception target
  | Derived _ base => issubclass base target
  end.

(** A raised exception: its class and its message. *)
Record exn : Type := mkExn { exn_cls : exn_class; exn_msg : string }.

(** The outcome of a computation that may raise. *)
Inductive result (A : Type) : Type :=
| Ok (a : A)
| Raise (e : exn).
Arguments Ok {A} a.
Arguments Raise {A} e.

(** ** [str] of the objects *)

(** The decimal numeral of an integer, with a leading [-] for negative
    numbers. *)
Definition decimal (n : Z) : string := NilZero.string_of_int (Z.to_int n).

(** The limit of CPython on the conversion of an [int] to a string
    ([sys.get_int_max_str_digits()], by default 4300), and the number of
    digits of an integer, the sign not counted. *)
Definition int_max_str_digits : Z := 4300.

Definition int_digits (n : Z) : Z :=
  Z.of_nat (String.length (decimal (Z.abs n))).

Definition str_limit_error : exn :=
  mkExn ValueError
    "Exceeds the limit (4300 digits) for integer string conversion; use sys.set_int_max_str_digits() to increase the limit".

(** [str(n)] for an [int]: the decimal numeral, or a [ValueError] when
    the integer has more digits than the limit. *)
Definition str_int (n : Z) : result string :=
  if int_max_str_digits <? int_digits n then Raise str_limit_error
  else Ok (decimal n).

(** [sep.join(parts)]. *)
Definition join (sep : string) (parts : list string) : string :=
  String.concat sep parts.

(** [str(o)], which for these objects coincides with [repr(o)]; the
    parts of a slice or of a tuple are converted from left to right. *)
Fixpoint py_str (o : pyobj) : result string :=
  match o with
  | PyNone => Ok "None"
  | PyInt n => str_int n
  | PyBool b => Ok (if b then "True" else "False")
  | PyEllipsis => Ok "Ellipsis"
  | PySlice a b c =>
      match py_str a with
      | Raise e => Raise e
      | Ok sa =>
          match py_str b with
          | Raise e => Raise e
          | Ok sb =>
              match py_str c with
              | Raise e => Raise e
              | Ok sc =>
                  Ok ("slice(" +:+ sa +:+ ", " +:+ sb +:+ ", " +:+ sc +:+ ")")
              end
          end
      end
  | PyTuple items =>
      match
        (fix reprs (l : list pyobj) : result (list string) :=
           match l with
           | [] => Ok []
           | x :: rest =>
               match py_str x with
               | Raise e => Raise e
               | Ok sx =>
                   match reprs rest with
                   | Raise e => Raise e
                   | Ok srest => Ok (sx :: srest)
                   end
               end
           end) items
      with
      | Raise e => Raise e
      | Ok parts =>
          Ok ("(" +:+ join ", " parts
                  +:+ (match items with [_] => "," | _ => "" end) +:+ ")")
      end
  end.

(** ** [slice_to_string] (lines 47-63) *)

(** [x or '']: the object itself when it is true, the empty string
    (here [None]) otherwise. *)
Definition or_empty (x : pyobj) : option pyobj :=
  if py_truthy x then Some x else None.

(** The text that the f-string of line 62 puts for such a value. *)
Definition format_field (v : option pyobj) : result string :=
  match v with
  | Some x => py_str x
  | None => Ok ""
  end.

(** The body of the [for] loop, one iteration per term, threading the
    list [slice_parts]. *)
Fixpoint slice_parts_loop (terms : list pyobj) (slice_parts : list string)
  : result (list string) :=
  match terms with
  | [] => Ok slice_parts
  | index :: rest =>
      if isinstance_int index then
        match py_str index with
        | Raise e => Raise e
        | Ok text => slice_parts_loop rest (slice_parts ++ [text])
        end
      else
        match index with
        | PySlice i_start i_stop i_step =>
            let start := or_empty i_start in
            let stop := or_empty i_stop in
            if negb (py_in i_step [PyInt 1; PyNone]) then
              Raise (mkExn IndexError "Only step=1 is supported")
            else
              match format_field start with
              | Raise e => Raise e
              | Ok start_text =>
                  match format_field stop with
                  | Raise e => Raise e
                  | Ok stop_text =>
                      slice_parts_loop rest
                        (slice_parts ++ [start_text +:+ ":" +:+ stop_text])
                  end
              end
        | _ => slice_parts_loop rest slice_parts
        end
  end.

(** [if not isinstance(slice_, tuple): slice_ = (slice_,)]. *)
Definition as_tuple (slice_ : pyobj) : list pyobj :=
  match slice_ with
  | PyTuple items => items
  | _ => [slice_]
  end.

(** [o is None]. *)
Definition is_None (o : pyobj) : bool :=
  match o with PyNone => true | _ => false end.

Definition slice_to_string (slice_ : pyobj) : result string :=
  if is_None slice_ || py_eq slice_ (PyTuple []) || py_eq slice_ slice_None
  then Ok ""
  else
    match slice_parts_loop (as_tuple slice_) [] with
    | Ok slice_parts => Ok (join ", " slice_parts)
    | Raise e => Raise e
    end.

(** The exception of line 60. *)
Definition step_error : exn := mkExn IndexError "Only step=1 is supported".

(** What one iteration of the loop of [slice_to_string] appends to
    [slice_parts]: one rendering, nothing, or an exception. *)
Definition term_part (index : pyobj) : result (list string) :=
  if isinstance_int index then
    match py_str index with
    | Raise e => Raise e
    | Ok text => Ok [text]
    end
  else
    match index with
    | PySlice i_start i_stop i_step =>
        if negb (py_in i_step [PyInt 1; PyNone]) then Raise step_error
        else
          match format_field (or_empty i_start) with
          | Raise e => Raise e
          | Ok start_text =>
              match format_field (or_empty i_stop) with
              | Raise e => Raise e
              | Ok stop_text => Ok [start_text +:+ ":" +:+ stop_text]
              end
          end
    | _ => Ok []
    end.

(** What the loop appends for a list of terms: the parts of the terms in
    order, or the exception of the first term that raises. *)
Fixpoint terms_parts (terms : list pyobj) : result (list string) :=
  match terms with
  | [] => Ok []
  | index :: rest =>
      match term_part index with
      | Raise e => Raise e
      | Ok part =>
          match terms_parts rest with
          | Raise e => Raise e
          | Ok parts => Ok (part ++ parts)
          end
      end
  end.

(** ** The texts of objects whose integers are within the limit *)

(** No integer that occurs in the object has more digits than the
    limit. *)
Fixpoint ints_within_limit (o : pyobj) : bool :=
  match o with
  | PyInt n => int_digits n <=? int_max_str_digits
  | PySlice a b c =>
      ints_within_limit a && ints_within_limit b && ints_within_limit c
  | PyTuple items =>
      (fix all (l : list pyobj) : bool :=
         match l with
         | [] => true
         | x :: rest => ints_within_limit x && all rest
         end) items
  | _ => true
  end.

(** The text of [str(o)] for such an object. *)
Fixpoint py_text (o : pyobj) : string :=
  match o with
  | PyNone => "None"
  | PyInt n => decimal n
  | PyBool b => if b then "True" else "False"
  | PyEllipsis => "Ellipsis"
  | PySlice a b c =>
      "slice(" +:+ py_text a +:+ ", " +:+ py_text b +:+ ", " +:+ py_text c +:+ ")"
  | PyTuple items =>
      "(" +:+ join ", " (map py_text items)
          +:+ (match items with [_] => "," | _ => "" end) +:+ ")"
  end.

(** The text of a slice bound [x] in the wire string: that of [x or '']. *)
Definition bound_text (x : pyobj) : string :=
  if py_truthy x then py_text x else "".

(** What a term contributes to the wire string when it does not raise. *)
Definition rendered_term (index : pyobj) : list string :=
  if isinstance_int index then [py_text index]
  else
    match index with
    | PySlice i_start i_stop _ =>
        [bound_text i_start +:+ ":" +:+ bound_text i_stop]
    | _ => []
    end.

(** An integer of 4301 digits. *)
Definition huge_int : Z := 10 ^ 4300.

(** ** The network and the two libraries the module calls into *)

Definition bytes : Type := list Byte.byte.

(** The value of [response.json()]: a decoded JSON document (numbers are
    restricted to integers).  An object is the list of its items in
    insertion order, which is the order in which Python iterates over
    the [dict]. *)
Inductive json : Type :=
| JNull
| JBool (b : bool)
| JNum (n : Z)
| JStr (s : string)
| JArr (items : list json)
| JObj (fields : list (string * json)).

(** The arguments of one [httpx.get] call. *)
Record request : Type := mkRequest {
  req_url : string;
  req_params : option (gmap string string);
  req_headers : option (gmap string string);
  req_timeout : Z
}.

(** [httpx], as far as the module uses it.  [httpx_get req earlier] is the
    outcome of [httpx.get] for [req] when the requests [earlier] have
    already been issued: a response, or the transport error raised.
    [raise_for_status] raises for a response whose status is not a
    success. *)
Class Httpx : Type := {
  Response : Type;
  httpx_get : request -> list request -> result Response;
  raise_for_status : Response -> result unit;
  content : Response -> bytes;
  response_json : Response -> result json
}.

(** [blosc2] and the arrays it returns, as far as the module uses them:
    the decompressor of a standalone frame, the decoder of a serialized
    array container, and the dimension count and indexing of the decoded
    [NDArray]. *)
Class Blosc2 : Type := {
  NDArray : Type;
  np_ndarray : Type;
  decompress2 : bytes -> result bytes;
  ndarray_from_cframe : bytes -> result NDArray;
  ndim : NDArray -> Z;
  NDArray_getitem : NDArray -> pyobj -> result np_ndarray
}.

(** ** Computations that raise and act on a state *)

Definition M (S A : Type) : Type := S -> result A * S.

Definition ret {S A} (a : A) : M S A := fun s => (Ok a, s).

Definition raise {S A} (e : exn) : M S A := fun s => (Raise e, s).

Definition bind {S A B} (m : M S A) (k : A -> M S B) : M S B :=
  fun s =>
    match m s with
    | (Ok a, s') => k a s'
    | (Raise e, s') => (Raise e, s')
    end.

(** A computation without effect on the state. *)
Definition lift {S A} (r : result A) : M S A := fun s => (r, s).

(** [try: body except classes: handler]. *)
Definition try_except {S A} (body : M S A) (classes : list exn_class)
    (handler : M S A) : M S A :=
  fun s =>
    match body s with
    | (Ok a, s') => (Ok a, s')
    | (Raise e, s') =>
        if existsb (issubclass (exn_cls e)) classes then handler s'
        else (Raise e, s')
    end.

Notation "x <- m ;; k" := (bind m (fun x => k))
  (at level 100, m at next level, right associativity).
Notation "m ;;; k" := (bind m (fun _ => k))
  (at level 100, right associativity).

(** Free functions act on the log of the requests issued so far. *)
Definition IO (A : Type) : Type := M (list request) A.

(** [httpx.get(url, params=..., headers=..., timeout=...)]: the call is
    appended to the log, whatever its outcome. *)
Definition httpx_get_call {net : Httpx} (req : request) : IO Response :=
  fun log => (httpx_get req log, log ++ [req]).

(** Truth value of an optional string ([None] and [''] are false). *)
Definition str_truthy (o : option string) : bool :=
  match o with
  | Some s => negb (String.eqb s "")
  | None => false
  end.

(** Truth value of an optional dictionary ([None] and [{}] are false). *)
Definition dict_truthy (o : option (gmap string string)) : bool :=
  match o with
  | Some d => negb (bool_decide (d = ∅))
  | None => false
  end.

(** ** [_xget], [get] and [fetch_data] (lines 19-44) *)

Section Functions.
Context {net : Httpx} {engine : Blosc2}.

Definition _xget (url : string) (params headers : option (gmap string string))
    (timeout : Z) (auth_cookie : option string) : IO Response :=
  let headers :=
    if str_truthy auth_cookie then
      let headers := if dict_truthy headers then default ∅ headers else ∅ in
      Some (<["Cookie" := default "" auth_cookie]> headers)
    else headers in
  response <- httpx_get_call (mkRequest url params headers timeout) ;;
  lift (raise_for_status response) ;;;
  ret response.

(** [model], when given, stands for the call of [model] on the keyword
    arguments unpacked from [json]. *)
Definition get (url : string) (params headers : option (gmap string string))
    (timeout : Z) (model : option (json -> result json))
    (auth_cookie : option string) : IO json :=
  response <- _xget url params headers timeout auth_cookie ;;
  json <- lift (response_json response) ;;
  match model with
  | None => ret json
  | Some model => lift (model json)
  end.

(** What [fetch_data] returns: the bytes that [decompress2] produced, or
    the array extracted from a decoded container. *)
Inductive fetched : Type :=
| Decompressed (data : bytes)
| Extracted (data : np_ndarray).

(** Line 43: [data[:] if data.ndim == 1 else data[()]]. *)
Definition extract_all (data : NDArray) : result np_ndarray :=
  if ndim data =? 1 then NDArray_getitem data slice_None
  else NDArray_getitem data (PyTuple []).

Definition fetch_data (path sub_url : string)
    (params : option (gmap string string)) (auth_cookie : option string)
  : IO fetched :=
  response <- _xget (sub_url +:+ "api/fetch/" +:+ path) params None 15
                auth_cookie ;;
  let data := content response in
  try_except
    (data <- lift (decompress2 data) ;; ret (Decompressed data))
    [ValueError; RuntimeError]
    (data <- lift (ndarray_from_cframe data) ;;
     data <- lift (extract_all data) ;;
     ret (Extracted data)).

End Functions.

(** ** The class [C2Array] (lines 66-134) *)

(** [d[key]] for a JSON value [d]. *)
Definition json_subscript (d : json) (key : string) : result json :=
  match d with
  | JObj fields =>
      match find (fun kv => String.eqb (fst kv) key) fields with
      | Some kv => Ok (snd kv)
      | None => Raise (mkExn KeyError key)
      end
  | JArr _ => Raise (mkExn TypeError "list indices must be integers or slices, not str")
  | JStr _ => Raise (mkExn TypeError "string indices must be integers, not 'str'")
  | _ => Raise (mkExn TypeError "object is not subscriptable")
  end.

(** [tuple(v)] for a JSON value [v]. *)
Definition json_tuple (v : json) : result (list json) :=
  match v with
  | JArr items => Ok items
  | JStr s => Ok (map (fun c => JStr (String c EmptyString)) (list_ascii_of_string s))
  | JObj fields => Ok (map (fun kv => JStr (fst kv)) fields)
  | _ => Raise (mkExn TypeError "object is not iterable")
  end.

Module C2Array.

(** The attributes of an instance. *)
Record t : Type := mk {
  path : string;
  sub_url : string;
  auth_cookie : option string;
  meta : json
}.

(** Methods act on the instance and on the request log. *)
Definition Method (A : Type) : Type := M (t * list request) A.

Definition attr {A} (f : t -> A) : Method A :=
  fun s => (Ok (f (fst s)), s).

Definition call {A} (m : IO A) : Method A :=
  fun s =>
    let '(r, log) := m (snd s) in (r, (fst s, log)).

Section Methods.
Context {net : Httpx} {engine : Blosc2}.

(** The constructor: the attributes are set and the metadata fetched;
    when [get] raises, no instance is returned. *)
Definition __init__ (path sub_url : string) (auth_cookie : option string)
  : IO t :=
  meta <- get (sub_url +:+ "api/info/" +:+ path) None None 15 None
            auth_cookie ;;
  ret (mk path sub_url auth_cookie meta).

Definition __getitem__ (slice_ : pyobj) : Method fetched :=
  slice_ <- lift (slice_to_string slice_) ;;
  self_path <- attr path ;;
  self_sub_url <- attr sub_url ;;
  self_auth_cookie <- attr auth_cookie ;;
  data <- call (fetch_data self_path self_sub_url
                  (Some {["slice_" := slice_]}) self_auth_cookie) ;;
  ret data.

Definition meta_tuple (key : string) : Method (list json) :=
  self_meta <- attr meta ;;
  v <- lift (json_subscript self_meta key) ;;
  lift (json_tuple v).

Definition shape : Method (list json) := meta_tuple "shape".
Definition chunks : Method (list json) := meta_tuple "chunks".
Definition blocks : Method (list json) := meta_tuple "blocks".
Definition ext_shape : Method (list json) := meta_tuple "ext_shape".

Definition dtype : Method json :=
  self_meta <- attr meta ;;
  lift (json_subscript self_meta "dtype").

End Methods.

End C2Array.

(** ** The wire grammar of the specification

    [WireSliceString ::= "" | term (", " term)*] with
    [term ::= INTEGER | INTEGER? ":" INTEGER?].  An [INTEGER] is a
    non-empty run of decimal digits, optionally preceded by a minus sign
    (Python's indices may be negative). *)

Definition is_digit (c : ascii) : bool :=
  let n := N_of_ascii c in ((48 <=? n) && (n <=? 57))%N.

Fixpoint all_digits (s : string) : bool :=
  match s with
  | EmptyString => true
  | String c rest => is_digit c && all_digits rest
  end.

Inductive INTEGER : string -> Prop :=
| INTEGER_digits ds :
    ds <> "" -> all_digits ds = true -> INTEGER ds
| INTEGER_minus ds :
    ds <> "" -> all_digits ds = true -> INTEGER (String "-" ds).

Definition opt_INTEGER (s : string) : Prop := s = "" \/ INTEGER s.

Inductive wire_term : string -> Prop :=
| wire_term_int i : INTEGER i -> wire_term i
| wire_term_range a b :
    opt_INTEGER a -> opt_INTEGER b -> wire_term (a +:+ ":" +:+ b).

Inductive wire_terms : string -> Prop :=
| wire_terms_last t : wire_term t -> wire_terms t
| wire_terms_more t rest :
    wire_term t -> wire_terms rest -> wire_terms (t +:+ ", " +:+ rest).

Definition wire_slice_string (s : string) : Prop := s = "" \/ wire_terms s.

(** A recognizer of the wire grammar: a finite automaton that reads the
    string from left to right. *)
Inductive wire_state : Type :=
| AtStart
| AtTerm
| AfterMinus1
| InInteger1
| AfterColon
| AfterMinus2
| InInteger2
| AfterComma
| Rejected.

Definition wire_step (q : wire_state) (c : ascii) : wire_state :=
  match q with
  | AtStart | AtTerm =>
      if is_digit c then InInteger1
      else if Ascii.eqb c "-" then AfterMinus1
      else if Ascii.eqb c ":" then AfterColon
      else Rejected
  | AfterMinus1 => if is_digit c then InInteger1 else Rejected
  | InInteger1 =>
      if is_digit c then InInteger1
      else if Ascii.eqb c ":" then AfterColon
      else if Ascii.eqb c "," then AfterComma
      else Rejected
  | AfterColon =>
      if is_digit c then InInteger2
      else if Ascii.eqb c "-" then AfterMinus2
      else if Ascii.eqb c "," then AfterComma
      else Rejected
  | AfterMinus2 => if is_digit c then InInteger2 else Rejected
  | InInteger2 =>
      if is_digit c then InInteger2
      else if Ascii.eqb c "," then AfterComma
      else Rejected
  | AfterComma => if Ascii.eqb c " " then AtTerm else Rejected
  | Rejected => Rejected
  end.

Fixpoint wire_run (q : wire_state) (s : string) : wire_state :=
  match s with
  | EmptyString => q
  | String c rest => wire_run (wire_step q c) rest
  end.

Definition wire_accepting (q : wire_state) : bool :=
  match q with
  | AtStart | InInteger1 | AfterColon | InInteger2 => true
  | _ => false
  end.

Definition wire_slice_stringb (s : string) : bool :=
  wire_accepting (wire_run AtStart s).

(** The states in which a term may begin, and those in which one may
    end. *)
Definition at_term_start (q : wire_state) : bool :=
  match q with AtStart | AtTerm => true | _ => false end.

Definition after_term (q : wire_state) : bool :=
  match q with InInteger1 | AfterColon | InInteger2 => true | _ => false end.

(** What may follow a prefix that has led the automaton to state [q], in
    terms of the grammar. *)
Definition residual (q : wire_state) (s : string) : Prop :=
  match q with
  | AtStart => wire_slice_string s
  | AtTerm => wire_terms s
  | AfterMinus1 => wire_terms (String "-" s)
  | InInteger1 => forall p, INTEGER p -> wire_terms (p +:+ s)
  | AfterColon => forall a, opt_INTEGER a -> wire_terms (a +:+ ":" +:+ s)
  | AfterMinus2 =>
      forall a, opt_INTEGER a -> wire_terms (a +:+ ":" +:+ String "-" s)
  | InInteger2 =>
      forall a b, opt_INTEGER a -> INTEGER b ->
                  wire_terms (a +:+ ":" +:+ b +:+ s)
  | AfterComma => forall t, wire_term t -> wire_terms (t +:+ String "," s)
  | Rejected => False
  end.

(** The characters of a term: digits, the minus sign and the colon. *)
Definition term_char (c : ascii) : bool :=
  is_digit c || Ascii.eqb c "-" || Ascii.eqb c ":".

Fixpoint string_forall (p : ascii -> bool) (s : string) : bool :=
  match s with
  | EmptyString => true
  | String c rest => p c && string_forall p rest
  end.

(** ** Index expressions as the specification describes them *)

(** A bound of a range: unset, or an integer. *)
Definition is_bound (o : pyobj) : bool :=
  match o with PyNone | PyInt _ => true | _ => false end.

(** A step that is unspecified or one. *)
Definition unit_step (o : pyobj) : bool :=
  match o with
  | PyNone => true
  | PyInt n => n =? 1
  | _ => false
  end.

(** A valid term: an integer, or a range with integer or unset bounds and
    a unit or unspecified step. *)
Definition valid_term (o : pyobj) : bool :=
  match o with
  | PyInt _ => true
  | PySlice a b c => is_bound a && is_bound b && unit_step c
  | _ => false
  end.

(** A valid index expression: absent, a single valid term, or a tuple of
    valid terms. *)
Definition valid_expr (e : pyobj) : bool :=
  match e with
  | PyNone => true
  | _ => forallb valid_term (as_tuple e)
  end.

(** The three forms that denote "select everything". *)
Definition select_everything (e : pyobj) : bool :=
  is_None e || py_eq e (PyTuple []) || py_eq e slice_None.

(** A range term whose step is set and not equal to one. *)
Definition non_unit_step_term (o : pyobj) : bool :=
  match o with
  | PySlice _ _ step => negb (is_None step) && negb (py_eq step (PyInt 1))
  | _ => false
  end.

(** A term that is an integer or a range. *)
Definition int_or_slice (o : pyobj) : bool :=
  isinstance_int o || isinstance_slice o.

(** The rendering of a bound in the words of the specification: the
    empty string when unset, the decimal numeral otherwise. *)
Definition spec_bound (o : pyobj) : string :=
  match o with
  | PyInt n => decimal n
  | _ => ""
  end.

(** The rendering of a term in the words of the specification. *)
Definition spec_term (o : pyobj) : string :=
  match o with
  | PyInt n => decimal n
  | PySlice a b _ => spec_bound a +:+ ":" +:+ spec_bound b
  | _ => ""
  end.

(** The encoding in the words of the specification: every term
    rendered, the renderings joined in axis order. *)
Definition spec_encode (e : pyobj) : string :=
  join ", " (map spec_term (as_tuple e)).

(** The rendering of a start bound by the code: unset and zero both give
    the empty string. *)
Definition start_bound (o : pyobj) : string :=
  match o with
  | PyInt n => if n =? 0 then "" else decimal n
  | _ => ""
  end.

(** A range term whose stop bound is the integer zero. *)
Definition zero_stop (o : pyobj) : bool :=
  match o with
  | PySlice _ (PyInt n) _ => n =? 0
  | _ => false
  end.

(** The rendering of a term with [start_bound] for the start. *)
Definition design_term (o : pyobj) : string :=
  match o with
  | PyInt n => decimal n
  | PySlice a b _ => start_bound a +:+ ":" +:+ spec_bound b
  | _ => ""
  end.

(** ** The requests that the class is specified to issue *)

(** The headers of a request: the cookie when one is given and is not
    the empty string, no headers otherwise. *)
Definition cookie_headers (auth_cookie : option string)
  : option (gmap string string) :=
  match auth_cookie with
  | Some cookie =>
      if String.eqb cookie "" then None else Some {["Cookie" := cookie]}
  | None => None
  end.

(** [GET {sub_url}api/fetch/{path}?slice_=wire]. *)
Definition fetch_request (self : C2Array.t) (wire : string) : request :=
  mkRequest (C2Array.sub_url self +:+ "api/fetch/" +:+ C2Array.path self)
            (Some {["slice_" := wire]})
            (cookie_headers (C2Array.auth_cookie self)) 15.

(** [GET {sub_url}api/info/{path}]. *)
Definition info_request (path sub_url : string) (auth_cookie : option string)
  : request :=
  mkRequest (sub_url +:+ "api/info/" +:+ path) None
            (cookie_headers auth_cookie) 15.

(** [except (ValueError, RuntimeError)] catches this exception. *)
Definition format_error (e : exn) : bool :=
  existsb (issubclass (exn_cls e)) [ValueError; RuntimeError].

(** The error class that the specification names for a payload that
    neither interpretation accepts; the module defines no such class. *)
Definition DecodeError : exn_class := Derived "DecodeError" Exception.

(** The error class that the specification names for metadata that lacks
    a required field; the module defines no such class. *)
Definition MalformedMetadataError : exn_class :=
  Derived "MalformedMetadataError" Exception.

(** The fallback of the decoder in the words of the specification: the
    container is decoded and the requested expression applied to it. *)
Definition spec_fallback {engine : Blosc2} (expr : pyobj) (raw : bytes)
  : result np_ndarray :=
  match ndarray_from_cframe raw with
  | Ok arr => NDArray_getitem arr expr
  | Raise e => Raise e
  end.

(** Lines 39-44 of [fetch_data] as a function of the payload: the frame
    interpretation, and on a [ValueError] or [RuntimeError] the container
    interpretation followed by the extraction of line 43. *)
Definition decode {engine : Blosc2} (raw : bytes) : result fetched :=
  match decompress2 raw with
  | Ok data => Ok (Decompressed data)
  | Raise e =>
      if format_error e then
        match ndarray_from_cframe raw with
        | Ok arr =>
            match extract_all arr with
            | Ok data => Ok (Extracted data)
            | Raise e' => Raise e'
            end
        | Raise e' => Raise e'
        end
      else Raise e
  end.

(** The outcome of one checked request: the response, the transport
    error of [httpx.get], or the error of [raise_for_status]. *)
Definition checked_response {net : Httpx} (req : request) (log : list request)
  : result Response :=
  match httpx_get req log with
  | Ok response =>
      match raise_for_status response with
      | Ok _ => Ok response
      | Raise e => Raise e
      end
  | Raise e => Raise e
  end.

(** What [tuple(meta[key])] yields for the metadata document [meta]. *)
Definition cached_tuple (meta : json) (key : string) : result (list json) :=
  match json_subscript meta key with
  | Ok v => json_tuple v
  | Raise e => Raise e
  end.

(** The JSON document is an object without the field [key]. *)
Definition missing_field (doc : json) (key : string) : bool :=
  match doc with
  | JObj fields => negb (existsb (fun kv => String.eqb (fst kv) key) fields)
  | _ => false
  end.

(** ** A stub server and a stub engine, for concrete runs *)

Record stub_response : Type := mkStubResponse {
  status_code : Z;
  body : bytes;
  body_json : result json
}.

Definition HTTPStatusError : exn_class :=
  Derived "HTTPStatusError" (Derived "HTTPError" Exception).

(** A server that answers every request by [answer]; statuses outside
    200..299 make [raise_for_status] raise. *)
Definition stub_httpx (answer : request -> result stub_response) : Httpx := {|
  Response := stub_response;
  httpx_get := fun req _ => answer req;
  raise_for_status := fun r =>
    if (200 <=? status_code r) && (status_code r <=? 299) then Ok tt
    else Raise (mkExn HTTPStatusError (decimal (status_code r)));
  content := body;
  response_json := body_json
|}.

(** An array of the stub engine: its shape and its items in row-major
    order. *)
Record stub_array : Type := mkStubArray {
  arr_shape : list Z;
  arr_items : list Z
}.

(** Indexing of a stub array: the two "everything" selections, and a
    range with integer bounds on a one-dimensional array. *)
Definition stub_getitem (a : stub_array) (index : pyobj) : result stub_array :=
  match index with
  | PyTuple [] => Ok a
  | PySlice PyNone PyNone PyNone => Ok a
  | PySlice (PyInt lo) (PyInt hi) PyNone =>
      if (Z.of_nat (length (arr_shape a)) =? 1) && (0 <=? lo) && (lo <=? hi)
         && (hi <=? Z.of_nat (length (arr_items a)))
      then Ok (mkStubArray [hi - lo]
                 (take (Z.to_nat (hi - lo)) (drop (Z.to_nat lo) (arr_items a))))
      else Raise (mkExn IndexError "unsupported by the stub")
  | _ => Raise (mkExn IndexError "unsupported by the stub")
  end.

Definition byte_values (b : bytes) : list Z :=
  map (fun x => Z.of_N (Byte.to_N x)) b.

(** A payload that starts with byte 1 is a frame holding the rest; one
    that starts with byte 2 (byte 3) is the container of a
    one-dimensional (two-dimensional, single-row) array of the rest. *)
Definition stub_blosc2 : Blosc2 := {|
  NDArray := stub_array;
  np_ndarray := stub_array;
  decompress2 := fun raw =>
    match raw with
    | Byte.x01 :: rest => Ok rest
    | _ => Raise (mkExn ValueError "not a compressed frame")
    end;
  ndarray_from_cframe := fun raw =>
    match raw with
    | Byte.x02 :: rest =>
        Ok (mkStubArray [Z.of_nat (length rest)] (byte_values rest))
    | Byte.x03 :: rest =>
        Ok (mkStubArray [1; Z.of_nat (length rest)] (byte_values rest))
    | _ => Raise (mkExn RuntimeError "not a container")
    end;
  ndim := fun a => Z.of_nat (length (arr_shape a));
  NDArray_getitem := stub_getitem
|}.

(** A server that answers every request with status [status], the body
    [raw] and the JSON document [doc]. *)
Definition constant_server (status : Z) (raw : bytes) (doc : json) : Httpx :=
  stub_httpx (fun _ => Ok (mkStubResponse status raw (Ok doc))).

(** A handle as a successful construction leaves it. *)
Definition stub_handle : C2Array.t :=
  C2Array.mk "root/a.b2nd" "http://host/" (Some "token")
    (JObj [("shape", JArr [JNum 5]); ("chunks", JArr [JNum 5]);
           ("blocks", JArr [JNum 5]); ("dtype", JStr "uint8");
           ("ext_shape", JArr [JNum 5])]).

(** The container of the one-dimensional array [10, 20, 30, 40, 50], a
    server that returns it for every request, a server that returns an
    empty payload, and a server whose metadata document has no fields. *)
Definition container_payload : bytes :=
  [Byte.x02; Byte.x0a; Byte.x14; Byte.x1e; Byte.x28; Byte.x32].
Definition container_server : Httpx := constant_server 200 container_payload JNull.
Definition garbage_server : Httpx := constant_server 200 [] JNull.
Definition bare_info_server : Httpx := constant_server 200 [] (JObj []).

(** ** Callers of the handle, and notions used by further properties *)

(** A caller that indexes the handle with each expression in turn and
    keeps every outcome, going on after an exception. *)
Fixpoint getitem_each {net : Httpx} {engine : Blosc2} (exprs : list pyobj)
    (st : C2Array.t * list request)
  : list (result fetched) * (C2Array.t * list request) :=
  match exprs with
  | [] => ([], st)
  | expr :: rest =>
      let '(outcome, st') := C2Array.__getitem__ expr st in
      let '(outcomes, st'') := getitem_each rest st' in
      (outcome :: outcomes, st'')
  end.

(** The fetch requests of the expressions that the encoder accepts, in
    order. *)
Fixpoint fetch_requests (self : C2Array.t) (exprs : list pyobj) : list request :=
  match exprs with
  | [] => []
  | expr :: rest =>
      match slice_to_string expr with
      | Ok wire => fetch_request self wire :: fetch_requests self rest
      | Raise _ => fetch_requests self rest
      end
  end.

(** A term up to what the wire string does not distinguish: a start
    bound 0 is an open start, and a unit step is no step. *)
Definition canon_term (o : pyobj) : pyobj :=
  match o with
  | PySlice a b _ =>
      PySlice (match a with
               | PyInt n => if n =? 0 then PyNone else PyInt n
               | _ => a
               end) b PyNone
  | _ => o
  end.

(** The characters of a wire string: those of a term, the comma and the
    space. *)
Definition wire_char (c : ascii) : bool :=
  term_char c || Ascii.eqb c "," || Ascii.eqb c " ".

(** How an accessor of the field [key] can fail on the metadata [meta]:
    with a [KeyError] naming the field when [meta] is an object without
    it, and with a [TypeError] otherwise. *)
Definition accessor_error (meta : json) (key : string) (e : exn) : Prop :=
  (exn_cls e = KeyError /\ exn_msg e = key /\ missing_field meta key = true) \/
  (exn_cls e = TypeError /\ missing_field meta key = false).

(** The characters of an integer: digits and the minus sign. *)
Definition int_char (c : ascii) : bool := is_digit c || Ascii.eqb c "-".

(** An engine like the stub engine, except that its [decompress2]
    raises a [TypeError] for every payload. *)
Definition type_error_blosc2 : Blosc2 := {|
  NDArray := stub_array;
  np_ndarray := stub_array;
  decompress2 := fun _ =>
    Raise (mkExn TypeError "a bytes-like object is required");
  ndarray_from_cframe := ndarray_from_cframe (Blosc2 := stub_blosc2);
  ndim := ndim (Blosc2 := stub_blosc2);
  NDArray_getitem := stub_getitem
|}.

(** * Properties *)

(** ** Decimal numerals *)

Lemma string_of_uint_digits (d : uint) :
  all_digits (NilEmpty.string_of_uint d) = true.
Proof. induction d; cbn; auto. Qed.

Lemma NilZero_uint_digits (d : uint) :
  all_digits (NilZero.string_of_uint d) = true /\ NilZero.string_of_uint d <> "".
Proof.
  destruct d; cbn; try (split; [apply string_of_uint_digits | discriminate]).
  split; [reflexivity | discriminate].
Qed.

Lemma decimal_INTEGER (n : Z) : INTEGER (decimal n).
Proof.
  unfold decimal. destruct n as [|p|p]; cbn [Z.to_int NilZero.string_of_int].
  - apply INTEGER_digits; [discriminate | reflexivity].
  - destruct (NilZero_uint_digits (Pos.to_uint p)).
    apply INTEGER_digits; assumption.
  - destruct (NilZero_uint_digits (Pos.to_uint p)).
    apply INTEGER_minus; assumption.
Qed.

(** ** The wire grammar *)

Lemma string_forall_app (p : ascii -> bool) (s1 s2 : string) :
  string_forall p (s1 +:+ s2) = string_forall p s1 && string_forall p s2.
Proof.
  induction s1 as [|c s1 IH]; [reflexivity|].
  change (String c s1 +:+ s2) with (String c (s1 +:+ s2)).
  cbn [string_forall]. rewrite IH, andb_assoc. reflexivity.
Qed.

Lemma all_digits_term_chars (s : string) :
  all_digits s = true -> string_forall term_char s = true.
Proof.
  induction s as [|c s IH]; [reflexivity|].
  cbn. rewrite !andb_true_iff. intros [Hc Hs].
  split; [|apply IH, Hs]. unfold term_char. rewrite Hc. reflexivity.
Qed.

Lemma INTEGER_term_chars (s : string) :
  INTEGER s -> string_forall term_char s = true.
Proof.
  intros [ds _ Hds | ds _ Hds]; [apply all_digits_term_chars, Hds|].
  cbn. apply all_digits_term_chars, Hds.
Qed.

(** A term holds digits, minus signs and a colon only: no whitespace
    occurs inside a term. *)
Lemma wire_term_chars (t : string) :
  wire_term t -> string_forall term_char t = true.
Proof.
  intros [i Hi | a b Ha Hb]; [apply INTEGER_term_chars, Hi|].
  rewrite !string_forall_app, !andb_true_iff. repeat split.
  - destruct Ha as [-> | Ha]; [reflexivity | apply INTEGER_term_chars, Ha].
  - destruct Hb as [-> | Hb]; [reflexivity | apply INTEGER_term_chars, Hb].
Qed.

Example wire_term_without_space : ~ wire_term "1 :2".
Proof. intros Hterm. apply wire_term_chars in Hterm. discriminate Hterm. Qed.

Example wire_term_open_range : wire_term ":30".
Proof.
  apply (wire_term_range "" "30"); [left; reflexivity | right].
  apply INTEGER_digits; [discriminate | reflexivity].
Qed.

(** ** The recognizer agrees with the grammar *)

Lemma append_assoc (s1 s2 s3 : string) :
  (s1 +:+ s2) +:+ s3 = s1 +:+ (s2 +:+ s3).
Proof.
  induction s1 as [|c s1 IH]; [reflexivity|].
  change (String c ((s1 +:+ s2) +:+ s3) = String c (s1 +:+ (s2 +:+ s3))).
  rewrite IH. reflexivity.
Qed.

Lemma append_empty_r (s : string) : s +:+ "" = s.
Proof.
  induction s as [|c s IH]; [reflexivity|].
  change (String c (s +:+ "") = String c s). rewrite IH. reflexivity.
Qed.

Lemma append_cons (s1 : string) (c : ascii) (s2 : string) :
  s1 +:+ String c s2 = (s1 +:+ String c "") +:+ s2.
Proof. rewrite append_assoc. reflexivity. Qed.

Lemma all_digits_snoc (ds : string) (c : ascii) :
  all_digits ds = true -> is_digit c = true ->
  all_digits (ds +:+ String c "") = true.
Proof.
  intros Hds Hc. induction ds as [|d ds IH].
  - change (is_digit c && true = true). rewrite Hc. reflexivity.
  - cbn [all_digits] in Hds. apply andb_true_iff in Hds as [Hd Hds].
    change (is_digit d && all_digits (ds +:+ String c "") = true).
    rewrite Hd, (IH Hds). reflexivity.
Qed.

Lemma append_snoc_nonempty (s : string) (c : ascii) : s +:+ String c "" <> "".
Proof. destruct s; discriminate. Qed.

Lemma INTEGER_snoc (p : string) (c : ascii) :
  INTEGER p -> is_digit c = true -> INTEGER (p +:+ String c "").
Proof.
  intros [ds Hne Hds | ds Hne Hds] Hc.
  - apply INTEGER_digits; [apply append_snoc_nonempty|].
    apply all_digits_snoc; assumption.
  - change (INTEGER (String "-" (ds +:+ String c ""))).
    apply INTEGER_minus; [apply append_snoc_nonempty|].
    apply all_digits_snoc; assumption.
Qed.

Lemma INTEGER_digit (c : ascii) : is_digit c = true -> INTEGER (String c "").
Proof.
  intros Hc. apply INTEGER_digits; [discriminate|]. cbn. rewrite Hc. reflexivity.
Qed.

Lemma INTEGER_minus_digit (c : ascii) :
  is_digit c = true -> INTEGER (String "-" (String c "")).
Proof.
  intros Hc. apply INTEGER_minus; [discriminate|]. cbn. rewrite Hc. reflexivity.
Qed.

Lemma range_then (a b rest : string) :
  (a +:+ ":" +:+ b) +:+ rest = a +:+ ":" +:+ b +:+ rest.
Proof. rewrite !append_assoc. reflexivity. Qed.

(** Case analysis on the character that the automaton reads. *)
Ltac read_char c :=
  repeat match goal with
         | |- context [is_digit c] => destruct (is_digit c) eqn:?
         | |- context [Ascii.eqb c ?x] =>
             let E := fresh "E" in
             destruct (Ascii.eqb c x) eqn:E;
             [apply Ascii.eqb_eq in E; subst c|]
         end;
  try discriminate; try contradiction.

Lemma residual_step (q : wire_state) (c : ascii) (s : string) :
  residual (wire_step q c) s -> residual q (String c s).
Proof.
  destruct q; cbn [wire_step]; read_char c; cbn [residual]; intros Hres;
    try contradiction.
  - right. apply (Hres (String c "")), INTEGER_digit. assumption.
  - right. exact Hres.
  - right. apply (Hres ""). left. reflexivity.
  - apply (Hres (String c "")), INTEGER_digit. assumption.
  - exact Hres.
  - apply (Hres ""). left. reflexivity.
  - apply (Hres (String "-" (String c ""))), INTEGER_minus_digit. assumption.
  - intros p Hp. rewrite append_cons. apply Hres, INTEGER_snoc; assumption.
  - intros p Hp. apply Hres. right. exact Hp.
  - intros p Hp. apply Hres, wire_term_int, Hp.
  - intros a Ha. apply (Hres a (String c "") Ha), INTEGER_digit. assumption.
  - exact Hres.
  - intros a Ha. change (wire_terms (a +:+ ":" +:+ "" +:+ String "," s)).
    rewrite <- range_then. apply Hres, wire_term_range; [exact Ha|].
    left. reflexivity.
  - intros a Ha.
    apply (Hres a (String "-" (String c "")) Ha), INTEGER_minus_digit.
    assumption.
  - intros a b Ha Hb. rewrite (append_cons b c s).
    apply Hres; [exact Ha | apply INTEGER_snoc; assumption].
  - intros a b Ha Hb. rewrite <- range_then.
    apply Hres, wire_term_range; [exact Ha | right; exact Hb].
  - intros t Ht. apply (wire_terms_more t s Ht Hres).
Qed.

(** Soundness: an accepted string is a string of the grammar. *)
Lemma wire_run_sound (s : string) :
  forall q, wire_accepting (wire_run q s) = true -> residual q s.
Proof.
  induction s as [|c s IH]; intros q Hacc.
  - destruct q; try discriminate Hacc; cbn.
    + left. reflexivity.
    + intros p Hp. rewrite append_empty_r.
      apply wire_terms_last, wire_term_int, Hp.
    + intros a Ha. apply wire_terms_last.
      apply (wire_term_range a ""); [exact Ha | left; reflexivity].
    + intros a b Ha Hb. rewrite append_empty_r.
      apply wire_terms_last, wire_term_range; [exact Ha | right; exact Hb].
  - apply residual_step, IH, Hacc.
Qed.

Lemma wire_run_app (q : wire_state) (s1 s2 : string) :
  wire_run q (s1 +:+ s2) = wire_run (wire_run q s1) s2.
Proof.
  revert q. induction s1 as [|c s1 IH]; intros q; [reflexivity|].
  change (String c s1 +:+ s2) with (String c (s1 +:+ s2)).
  cbn [wire_run]. apply IH.
Qed.

Lemma wire_run_digits (q : wire_state) (ds : string) :
  all_digits ds = true -> q = InInteger1 \/ q = InInteger2 ->
  wire_run q ds = q.
Proof.
  intros Hds Hq. induction ds as [|d ds IH]; [reflexivity|].
  cbn [all_digits] in Hds. apply andb_true_iff in Hds as [Hd Hds].
  cbn [wire_run]. destruct Hq as [-> | ->]; cbn [wire_step]; rewrite Hd;
    apply IH; auto.
Qed.

Lemma wire_run_nonempty_digits (q : wire_state) (ds : string) :
  ds <> "" -> all_digits ds = true ->
  wire_run q ds =
  match q with
  | AtStart | AtTerm | AfterMinus1 | InInteger1 => InInteger1
  | AfterColon | AfterMinus2 | InInteger2 => InInteger2
  | AfterComma | Rejected => wire_run q ds
  end.
Proof.
  intros Hne Hds. destruct ds as [|d ds]; [congruence|].
  cbn [all_digits] in Hds. apply andb_true_iff in Hds as [Hd Hds].
  destruct q; try reflexivity; cbn [wire_run wire_step]; rewrite Hd;
    apply wire_run_digits; auto.
Qed.

Lemma wire_run_INTEGER (q : wire_state) (p : string) :
  INTEGER p ->
  at_term_start q = true -> wire_run q p = InInteger1.
Proof.
  intros [ds Hne Hds | ds Hne Hds] Hq.
  - rewrite (wire_run_nonempty_digits q ds Hne Hds).
    destruct q; try discriminate Hq; reflexivity.
  - destruct q; try discriminate Hq; cbn [wire_run wire_step];
      change (is_digit "-") with false; cbn [Ascii.eqb];
      apply (wire_run_nonempty_digits AfterMinus1 ds Hne Hds).
Qed.

Lemma wire_run_INTEGER_after_colon (p : string) :
  INTEGER p -> wire_run AfterColon p = InInteger2.
Proof.
  intros [ds Hne Hds | ds Hne Hds].
  - apply (wire_run_nonempty_digits AfterColon ds Hne Hds).
  - apply (wire_run_nonempty_digits AfterMinus2 ds Hne Hds).
Qed.

Lemma wire_run_term (q : wire_state) (t : string) :
  wire_term t -> at_term_start q = true ->
  after_term (wire_run q t) = true.
Proof.
  intros [i Hi | a b Ha Hb] Hq.
  - rewrite (wire_run_INTEGER q i Hi Hq). reflexivity.
  - rewrite wire_run_app.
    assert (wire_run (wire_run q a) (":" +:+ b) = wire_run AfterColon b) as ->.
    { destruct Ha as [-> | Ha].
      - destruct q; try discriminate Hq; reflexivity.
      - rewrite (wire_run_INTEGER q a Ha Hq). reflexivity. }
    destruct Hb as [-> | Hb]; [reflexivity|].
    rewrite (wire_run_INTEGER_after_colon b Hb). reflexivity.
Qed.

(** Completeness: every string of the grammar is accepted. *)
Lemma wire_run_terms (s : string) :
  wire_terms s ->
  forall q, at_term_start q = true -> after_term (wire_run q s) = true.
Proof.
  induction 1 as [t Ht | t rest Ht Hrest IH]; intros q Hq.
  - apply wire_run_term; assumption.
  - rewrite wire_run_app.
    pose proof (wire_run_term q t Ht Hq) as Hend.
    assert (wire_run (wire_run q t) (", " +:+ rest) = wire_run AtTerm rest) as ->.
    { destruct (wire_run q t); try discriminate Hend; reflexivity. }
    apply IH. reflexivity.
Qed.

(** The recognizer decides the grammar. *)
Lemma wire_slice_stringb_spec (s : string) :
  wire_slice_stringb s = true <-> wire_slice_string s.
Proof.
  unfold wire_slice_stringb. split.
  - apply (wire_run_sound s AtStart).
  - intros [-> | Hterms]; [reflexivity|].
    pose proof (wire_run_terms s Hterms AtStart eq_refl) as Hend.
    destruct (wire_run AtStart s); try discriminate Hend; reflexivity.
Qed.

Example wire_slice_stringb_accepts :
  wire_slice_stringb "3, 10:30, :-1" = true /\ wire_slice_stringb "" = true.
Proof. split; reflexivity. Qed.

Example wire_slice_stringb_rejects :
  wire_slice_stringb "3,10" = false /\ wire_slice_stringb "1:2:3" = false /\
  wire_slice_stringb "3, " = false /\ wire_slice_stringb "-" = false.
Proof. repeat split. Qed.

(** ** Equality tests of [slice_to_string] *)

Lemma is_None_true (o : pyobj) : is_None o = true <-> o = PyNone.
Proof. destruct o; cbn; split; congruence. Qed.

Lemma py_eq_None_r (o : pyobj) : py_eq o PyNone = true <-> o = PyNone.
Proof. destruct o; cbn; split; congruence. Qed.

Lemma py_eq_empty_tuple (o : pyobj) :
  py_eq o (PyTuple []) = true <-> o = PyTuple [].
Proof.
  destruct o as [| | | | |items]; cbn; try (split; congruence).
  destruct items; split; congruence.
Qed.

Lemma py_eq_slice_None (o : pyobj) :
  py_eq o slice_None = true <-> o = slice_None.
Proof.
  unfold slice_None.
  destruct o as [| | | |a b c|]; cbn; try (split; congruence).
  rewrite !andb_true_iff, !py_eq_None_r. split.
  - intros [[-> ->] ->]. reflexivity.
  - intros [= -> -> ->]. auto.
Qed.

Lemma select_everything_iff (e : pyobj) :
  select_everything e = true <->
  e = PyNone \/ e = PyTuple [] \/ e = slice_None.
Proof.
  unfold select_everything.
  rewrite !orb_true_iff, is_None_true, py_eq_empty_tuple, py_eq_slice_None.
  tauto.
Qed.

(** ** [str] within the limit *)

Lemma pyobj_nested_ind (P : pyobj -> Prop) :
  P PyNone -> (forall n, P (PyInt n)) -> (forall b, P (PyBool b)) ->
  P PyEllipsis ->
  (forall a b c, P a -> P b -> P c -> P (PySlice a b c)) ->
  (forall items, Forall P items -> P (PyTuple items)) ->
  forall o, P o.
Proof.
  intros HNone HInt HBool HEllipsis HSlice HTuple.
  fix IH 1. intros [|n|b| |a b c|items].
  - exact HNone.
  - apply HInt.
  - apply HBool.
  - exact HEllipsis.
  - apply HSlice; apply IH.
  - apply HTuple.
    exact ((fix each (l : list pyobj) : Forall P l :=
            match l with
            | [] => @List.Forall_nil pyobj P
            | x :: rest => @List.Forall_cons pyobj P x rest (IH x) (each rest)
            end) items).
Qed.

Lemma str_int_within_limit (n : Z) :
  (int_digits n <=? int_max_str_digits) = true -> str_int n = Ok (decimal n).
Proof.
  intros Hn. unfold str_int.
  destruct (int_max_str_digits <? int_digits n) eqn:Hlt; [|reflexivity].
  apply Z.ltb_lt in Hlt. apply Z.leb_le in Hn. lia.
Qed.

(** Within the limit, [str] raises nothing and gives the text. *)
Lemma py_str_text (o : pyobj) :
  ints_within_limit o = true -> py_str o = Ok (py_text o).
Proof.
  induction o as [|n|b| |a b c IHa IHb IHc|items IH] using pyobj_nested_ind;
    try reflexivity.
  - apply str_int_within_limit.
  - cbn [ints_within_limit]. rewrite !andb_true_iff. intros [[Ha Hb] Hc].
    cbn [py_str py_text]. rewrite (IHa Ha), (IHb Hb), (IHc Hc). reflexivity.
  - cbn [ints_within_limit py_str py_text]. intros Hitems.
    match goal with
    | |- match ?reprs items with _ => _ end = _ =>
        assert (reprs items = Ok (map py_text items)) as ->
    end; [|reflexivity].
    induction IH as [|x rest Hx Hrest IHrest]; [reflexivity|].
    apply andb_true_iff in Hitems as [Hwx Hwrest].
    rewrite (Hx Hwx), (IHrest Hwrest). reflexivity.
Qed.

(** [str] raises nothing but the error of the limit. *)
Lemma py_str_error (o : pyobj) (e : exn) :
  py_str o = Raise e -> e = str_limit_error.
Proof.
  revert e.
  induction o as [|n|b| |a b c IHa IHb IHc|items IH] using pyobj_nested_ind;
    intros e; try discriminate.
  - unfold py_str, str_int. destruct (_ <? _); [congruence | discriminate].
  - cbn [py_str]. destruct (py_str a); [|intros [= <-]; auto].
    destruct (py_str b); [|intros [= <-]; auto].
    destruct (py_str c); [discriminate | intros [= <-]; auto].
  - cbn [py_str].
    match goal with
    | |- match ?reprs items with _ => _ end = _ -> _ =>
        assert (forall e', reprs items = Raise e' -> e' = str_limit_error)
          as Hreprs
    end.
    { induction IH as [|x rest Hx Hrest IHrest]; intros e'; [discriminate|].
      destruct (py_str x); [|intros [= <-]; auto].
      match goal with
      | |- match ?r with _ => _ end = _ -> _ => destruct r eqn:Hr
      end; [discriminate | intros [= <-]; auto]. }
    match goal with
    | |- match ?r with _ => _ end = _ -> _ => destruct r eqn:Hr
    end; [discriminate | intros [= <-]; auto].
Qed.

Lemma format_field_text (x : pyobj) :
  ints_within_limit x = true ->
  format_field (or_empty x) = Ok (bound_text x).
Proof.
  intros Hx. unfold or_empty, bound_text.
  destruct (py_truthy x); [apply py_str_text, Hx | reflexivity].
Qed.

Lemma format_field_error (x : pyobj) (e : exn) :
  format_field (or_empty x) = Raise e -> e = str_limit_error.
Proof.
  unfold or_empty. destruct (py_truthy x); [apply py_str_error | discriminate].
Qed.

Lemma ints_within_limit_terms (e : pyobj) :
  ints_within_limit e = true -> forallb ints_within_limit (as_tuple e) = true.
Proof.
  destruct e; cbn; try reflexivity; try (intros ->; reflexivity).
  intros H. induction items as [|x rest IH]; [reflexivity|].
  apply andb_true_iff in H as [Hx Hrest]. cbn. rewrite Hx. apply IH, Hrest.
Qed.

(** ** The loop of [slice_to_string] *)

(** The loop appends, term by term, what [term_part] yields, and stops
    at the first term that raises. *)
Lemma slice_parts_loop_cons (index : pyobj) (rest : list pyobj)
    (acc : list string) :
  slice_parts_loop (index :: rest) acc =
  match term_part index with
  | Ok part => slice_parts_loop rest (acc ++ part)
  | Raise e => Raise e
  end.
Proof.
  cbn [slice_parts_loop]. unfold term_part.
  destruct (isinstance_int index).
  { destruct (py_str index); reflexivity. }
  destruct index; try (rewrite app_nil_r; reflexivity).
  destruct (negb _); [reflexivity|].
  destruct (format_field (or_empty index1)); [|reflexivity].
  destruct (format_field (or_empty index2)); reflexivity.
Qed.

Lemma slice_parts_loop_parts (terms : list pyobj) (acc : list string) :
  slice_parts_loop terms acc =
  match terms_parts terms with
  | Ok parts => Ok (acc ++ parts)
  | Raise e => Raise e
  end.
Proof.
  revert acc. induction terms as [|index rest IH]; intros acc.
  - cbn. rewrite app_nil_r. reflexivity.
  - rewrite slice_parts_loop_cons. cbn [terms_parts].
    destruct (term_part index) as [part|e]; [|reflexivity].
    rewrite IH. destruct (terms_parts rest); [|reflexivity].
    rewrite app_assoc. reflexivity.
Qed.

(** The whole function, for any expression. *)
Lemma slice_to_string_parts (e : pyobj) :
  slice_to_string e =
  if select_everything e then Ok ""
  else
    match terms_parts (as_tuple e) with
    | Ok parts => Ok (join ", " parts)
    | Raise x => Raise x
    end.
Proof.
  unfold slice_to_string, select_everything.
  destruct (_ || _ || _); [reflexivity|].
  rewrite slice_parts_loop_parts. destruct (terms_parts _); reflexivity.
Qed.

Lemma term_part_cases (index : pyobj) :
  ints_within_limit index = true ->
  term_part index =
  if non_unit_step_term index then Raise step_error
  else Ok (rendered_term index).
Proof.
  intros Hlimit. unfold term_part, rendered_term, non_unit_step_term.
  destruct index as [|n|b| |a b step|]; try reflexivity.
  - cbn [isinstance_int]. rewrite (py_str_text _ Hlimit). reflexivity.
  - cbn [isinstance_int].
    cbn [ints_within_limit] in Hlimit.
    apply andb_true_iff in Hlimit as [Hab _].
    apply andb_true_iff in Hab as [Ha Hb].
    rewrite (format_field_text a Ha), (format_field_text b Hb).
    destruct step as [|n| | | |]; cbn; try reflexivity.
    + rewrite orb_false_r. destruct (n =? 1); reflexivity.
    + rewrite orb_false_r. destruct b0; reflexivity.
Qed.

Lemma terms_parts_spec (terms : list pyobj) :
  forallb ints_within_limit terms = true ->
  terms_parts terms =
  if existsb non_unit_step_term terms then Raise step_error
  else Ok (concat (map rendered_term terms)).
Proof.
  induction terms as [|index rest IH]; [reflexivity|].
  cbn [forallb terms_parts existsb map concat]. rewrite andb_true_iff.
  intros [Hindex Hrest]. rewrite (term_part_cases index Hindex).
  destruct (non_unit_step_term index); [reflexivity|]. cbn [orb].
  rewrite (IH Hrest). destruct (existsb non_unit_step_term rest); reflexivity.
Qed.

(** The whole function, case by case, when no integer of the expression
    exceeds the limit. *)
Lemma slice_to_string_spec (e : pyobj) :
  ints_within_limit e = true ->
  slice_to_string e =
  if select_everything e then Ok ""
  else if existsb non_unit_step_term (as_tuple e) then Raise step_error
  else Ok (join ", " (concat (map rendered_term (as_tuple e)))).
Proof.
  intros Hlimit. rewrite slice_to_string_parts.
  destruct (select_everything e); [reflexivity|].
  rewrite (terms_parts_spec _ (ints_within_limit_terms e Hlimit)).
  destruct (existsb _ _); reflexivity.
Qed.

(** An encoder that raises, raises the error of line 60 or the error of
    [str]. *)
Lemma term_part_error (index : pyobj) (x : exn) :
  term_part index = Raise x -> x = step_error \/ x = str_limit_error.
Proof.
  unfold term_part. destruct (isinstance_int index).
  { destruct (py_str index) eqn:Hstr; [discriminate|].
    intros [= <-]. right. apply (py_str_error _ _ Hstr). }
  destruct index as [| | | |a b step|]; try discriminate.
  destruct (negb _); [intros [= <-]; auto|].
  destruct (format_field (or_empty a)) eqn:Ha.
  - destruct (format_field (or_empty b)) eqn:Hb; [discriminate|].
    intros [= <-]. right. apply (format_field_error _ _ Hb).
  - intros [= <-]. right. apply (format_field_error _ _ Ha).
Qed.

Lemma terms_parts_error (terms : list pyobj) (x : exn) :
  terms_parts terms = Raise x -> x = step_error \/ x = str_limit_error.
Proof.
  induction terms as [|index rest IH]; [discriminate|].
  cbn [terms_parts]. destruct (term_part index) eqn:Hpart.
  - destruct (terms_parts rest); [discriminate|]. intros [= <-]. auto.
  - intros [= <-]. apply (term_part_error _ _ Hpart).
Qed.



Lemma non_unit_step_not_everything (e : pyobj) :
  existsb non_unit_step_term (as_tuple e) = true -> select_everything e = false.
Proof.
  intros Hbad. destruct (select_everything e) eqn:Hall; [|reflexivity].
  apply select_everything_iff in Hall as [-> | [-> | ->]]; discriminate Hbad.
Qed.

(** ** Valid expressions and the wire grammar *)

Lemma bound_text_bound (o : pyobj) :
  is_bound o = true -> bound_text o = start_bound o.
Proof.
  destruct o as [|n| | | |]; try discriminate; intros _; [reflexivity|].
  unfold bound_text. cbn. destruct (n =? 0); reflexivity.
Qed.

Lemma start_bound_opt_INTEGER (o : pyobj) : opt_INTEGER (start_bound o).
Proof.
  destruct o as [|n| | | |]; cbn; try (left; reflexivity).
  destruct (n =? 0); [left; reflexivity | right; apply decimal_INTEGER].
Qed.

Lemma start_bound_nonzero_stop (a b c : pyobj) :
  is_bound b = true -> zero_stop (PySlice a b c) = false ->
  start_bound b = spec_bound b.
Proof.
  destruct b as [|n| | | |]; try discriminate; intros _; [reflexivity|].
  cbn. intros ->. reflexivity.
Qed.

Lemma unit_step_accepted (a b c : pyobj) :
  unit_step c = true -> non_unit_step_term (PySlice a b c) = false.
Proof.
  destruct c as [|n| | | |]; try discriminate; cbn; [reflexivity|].
  intros ->. reflexivity.
Qed.

Lemma valid_term_rendered (t : pyobj) :
  valid_term t = true ->
  non_unit_step_term t = false /\
  exists x, rendered_term t = [x] /\ wire_term x /\
            (zero_stop t = false -> x = design_term t).
Proof.
  destruct t as [|n| | |a b c|]; try discriminate.
  - intros _. split; [reflexivity|]. exists (decimal n).
    repeat split. apply wire_term_int, decimal_INTEGER.
  - cbn [valid_term]. rewrite !andb_true_iff. intros [[Ha Hb] Hc].
    split; [apply unit_step_accepted, Hc|].
    exists (start_bound a +:+ ":" +:+ start_bound b).
    unfold rendered_term. cbn [isinstance_int].
    rewrite (bound_text_bound a Ha), (bound_text_bound b Hb).
    repeat split.
    + apply wire_term_range; apply start_bound_opt_INTEGER.
    + intros Hz. cbn [design_term].
      rewrite (start_bound_nonzero_stop a b c Hb Hz). reflexivity.
Qed.

Lemma valid_terms_rendered (terms : list pyobj) :
  forallb valid_term terms = true ->
  existsb non_unit_step_term terms = false /\
  exists xs, concat (map rendered_term terms) = xs /\
             length xs = length terms /\
             Forall wire_term xs /\
             (existsb zero_stop terms = false -> xs = map design_term terms).
Proof.
  induction terms as [|t rest IH]; cbn [forallb existsb map concat].
  - intros _. split; [reflexivity|]. exists []. repeat split. constructor.
  - rewrite andb_true_iff. intros [Ht Hrest].
    destruct (valid_term_rendered t Ht) as [Hstep [x [Hx [Hw Hd]]]].
    destruct (IH Hrest) as [Hsteps [xs [Hxs [Hlen [Hall Hds]]]]].
    split; [rewrite Hstep, Hsteps; reflexivity|].
    exists (x :: xs). rewrite Hx, Hxs. repeat split.
    + cbn. rewrite Hlen. reflexivity.
    + constructor; assumption.
    + rewrite orb_false_iff. intros [Hz Hzs].
      rewrite (Hd Hz), (Hds Hzs). reflexivity.
Qed.

Lemma join_wire_terms (x : string) (xs : list string) :
  wire_term x -> Forall wire_term xs -> wire_terms (join ", " (x :: xs)).
Proof.
  intros Hx Hxs. revert x Hx.
  induction Hxs as [|y ys Hy Hys IH]; intros x Hx.
  - apply wire_terms_last, Hx.
  - change (join ", " (x :: y :: ys)) with (x +:+ ", " +:+ join ", " (y :: ys)).
    apply wire_terms_more; [exact Hx | apply IH, Hy].
Qed.

Lemma select_everything_tuple (items : list pyobj) :
  select_everything (PyTuple items) = false -> items <> [].
Proof. intros H ->. discriminate H. Qed.

Lemma valid_expr_terms (e : pyobj) :
  valid_expr e = true -> select_everything e = false ->
  forallb valid_term (as_tuple e) = true /\ as_tuple e <> [].
Proof.
  intros Hv Hs. split.
  - destruct e; try exact Hv. discriminate Hs.
  - destruct e; try discriminate. apply select_everything_tuple, Hs.
Qed.

(** A valid expression whose integers are within the limit is encoded,
    and its encoding is a string of the grammar. *)
Lemma valid_expr_encodes (e : pyobj) :
  valid_expr e = true -> ints_within_limit e = true ->
  exists s, slice_to_string e = Ok s /\ wire_slice_string s.
Proof.
  intros Hv Hlimit. rewrite (slice_to_string_spec e Hlimit).
  destruct (select_everything e) eqn:Hs.
  - exists "". split; [reflexivity | left; reflexivity].
  - destruct (valid_expr_terms e Hv Hs) as [Hterms Hne].
    destruct (valid_terms_rendered _ Hterms) as [Hstep [xs [Hxs [Hlen [Hall _]]]]].
    rewrite Hstep, Hxs. exists (join ", " xs). split; [reflexivity|]. right.
    destruct Hall as [|x xs' Hx Hxs'].
    + destruct (as_tuple e); [congruence | discriminate Hlen].
    + apply join_wire_terms; assumption.
Qed.

(** Terms that are neither integers nor ranges contribute nothing. *)
Lemma filter_terms_parts (items : list pyobj) :
  terms_parts (List.filter int_or_slice items) = terms_parts items.
Proof.
  induction items as [|t rest IH]; [reflexivity|].
  cbn [List.filter]. destruct (int_or_slice t) eqn:Ht.
  - cbn [terms_parts]. rewrite IH. reflexivity.
  - rewrite IH. cbn [terms_parts].
    assert (term_part t = Ok []) as ->
      by (destruct t; try discriminate Ht; reflexivity).
    destruct (terms_parts rest); reflexivity.
Qed.

Lemma filter_terms_nil (items : list pyobj) :
  List.filter int_or_slice items = [] -> terms_parts items = Ok [].
Proof. intros Hnil. rewrite <- filter_terms_parts, Hnil. reflexivity. Qed.

Lemma filter_terms_same_step (items : list pyobj) :
  existsb non_unit_step_term (List.filter int_or_slice items)
  = existsb non_unit_step_term items.
Proof.
  induction items as [|t rest IH]; [reflexivity|].
  cbn [List.filter existsb]. rewrite <- IH. destruct t; reflexivity.
Qed.

Lemma filter_terms_same_parts (items : list pyobj) :
  concat (map rendered_term (List.filter int_or_slice items))
  = concat (map rendered_term items).
Proof.
  induction items as [|t rest IH]; [reflexivity|].
  cbn [List.filter map concat]. rewrite <- IH. destruct t; reflexivity.
Qed.

(** ** The encoder [slice_to_string] *)

Example slice_to_string_three_axes :
  slice_to_string
    (PyTuple [PyInt 3; slice2 (PyInt 10) (PyInt 30); slice2 PyNone (PyInt (-1))])
  = Ok "3, 10:30, :-1".
Proof. vm_compute. reflexivity. Qed.

Example slice_to_string_single_range :
  slice_to_string (PySlice (PyInt 10) (PyInt 30) (PyInt 1)) = Ok "10:30".
Proof. vm_compute. reflexivity. Qed.

Example slice_to_string_bool_term :
  slice_to_string (PyBool true) = Ok "True".
Proof. reflexivity. Qed.

(** [str] of an integer of 4300 digits succeeds, [str] of one of 4301
    digits raises. *)
Example str_int_at_the_limit :
  int_digits (huge_int - 1) = 4300 /\
  (exists s, str_int (huge_int - 1) = Ok s) /\
  int_digits huge_int = 4301 /\
  str_int huge_int = Raise str_limit_error /\
  str_int (- huge_int) = Raise str_limit_error.
Proof.
  split; [vm_compute; reflexivity|].
  split; [eexists; apply str_int_within_limit; vm_compute; reflexivity|].
  split; [vm_compute; reflexivity|].
  split; vm_compute; reflexivity.
Qed.

Lemma str_int_huge : str_int huge_int = Raise str_limit_error.
Proof. vm_compute. reflexivity. Qed.

(** An integer term of 4301 digits makes the encoder raise the
    [ValueError] of [str]. *)
Lemma slice_to_string_huge_int :
  slice_to_string (PyInt huge_int) = Raise str_limit_error.
Proof.
  rewrite slice_to_string_parts. cbn [select_everything is_None py_eq orb].
  cbn [as_tuple terms_parts term_part isinstance_int py_str].
  rewrite str_int_huge. reflexivity.
Qed.

(** C3: the absent expression [None], the empty tuple [()] and the
    full-open range [slice(None)] are each encoded as the empty string. *)
Theorem slice_to_string_select_everything :
  slice_to_string PyNone = Ok "" /\
  slice_to_string (PyTuple []) = Ok "" /\
  slice_to_string slice_None = Ok "".
Proof. repeat split. Qed.

(** C4, as stated, fails: the range [slice(0, 5)] is a valid expression
    whose start bound is set, yet it is encoded as [":5"], not as the
    ["0:5"] that "start:stop with an unset bound rendered as the empty
    string" describes. *)
Lemma slice_to_string_zero_start_not_rendered :
  valid_expr (slice2 (PyInt 0) (PyInt 5)) = true /\
  spec_encode (slice2 (PyInt 0) (PyInt 5)) = "0:5" /\
  slice_to_string (slice2 (PyInt 0) (PyInt 5)) = Ok ":5" /\
  slice_to_string (slice2 (PyInt 0) (PyInt 5))
    <> Ok (spec_encode (slice2 (PyInt 0) (PyInt 5))).
Proof.
  split; [reflexivity|]. split; [reflexivity|].
  split; [vm_compute; reflexivity|]. vm_compute. discriminate.
Qed.

(** C4, amended: for every valid index expression in which no integer
    has more than 4300 digits, the encoder returns a string of the wire
    grammar.  When the expression is not one of the select-everything
    forms and no range term has the stop bound 0, that string is the
    renderings of the terms, in axis order, joined by [", "], where an
    integer term renders as its decimal numeral and a range term as
    [start:stop] with an unset bound, and also a start bound equal to 0,
    rendered as the empty string.  A single term that is not a tuple is
    encoded as the one-element tuple holding it. *)
Theorem slice_to_string_valid (e : pyobj) :
  valid_expr e = true ->
  ints_within_limit e = true ->
  (exists s, slice_to_string e = Ok s /\ wire_slice_string s /\
             wire_slice_stringb s = true) /\
  (select_everything e = false ->
   existsb zero_stop (as_tuple e) = false ->
   slice_to_string e = Ok (join ", " (map design_term (as_tuple e)))) /\
  (select_everything e = false ->
   isinstance_tuple e = false ->
   slice_to_string e = slice_to_string (PyTuple [e])).
Proof.
  intros Hv Hlimit. split; [|split].
  - destruct (valid_expr_encodes e Hv Hlimit) as [s [Henc Hwire]].
    exists s. split; [exact Henc|].
    split; [exact Hwire | apply wire_slice_stringb_spec, Hwire].
  - intros Hs Hz. rewrite (slice_to_string_spec e Hlimit), Hs.
    destruct (valid_expr_terms e Hv Hs) as [Hterms _].
    destruct (valid_terms_rendered _ Hterms) as [Hstep [xs [Hxs [_ [_ Hdesign]]]]].
    rewrite Hstep, Hxs, (Hdesign Hz). reflexivity.
  - intros Hs Htuple. rewrite !slice_to_string_parts, Hs.
    assert (as_tuple e = [e]) as He
      by (destruct e; try reflexivity; discriminate Htuple).
    cbn [as_tuple]. rewrite He. reflexivity.
Qed.

Lemma slice_to_string_valid_witness :
  (exists s, slice_to_string (slice2 (PyInt 0) (PyInt 30)) = Ok s /\
             wire_slice_string s /\ wire_slice_stringb s = true) /\
  slice_to_string (slice2 (PyInt 0) (PyInt 30))
  = Ok (join ", " (map design_term (as_tuple (slice2 (PyInt 0) (PyInt 30))))) /\
  slice_to_string (slice2 (PyInt 0) (PyInt 30))
  = slice_to_string (PyTuple [slice2 (PyInt 0) (PyInt 30)]).
Proof.
  destruct (slice_to_string_valid (slice2 (PyInt 0) (PyInt 30)) eq_refl eq_refl)
    as [Hgrammar [Hrender Hsingle]].
  split; [exact Hgrammar|].
  split; [apply Hrender; reflexivity | apply Hsingle; reflexivity].
Defined.

(** C5, as stated, fails: the tuple [(Ellipsis, 0)] contains a term that
    is neither an integer nor a range, yet the encoder raises nothing and
    returns ["0"]: the term is skipped. *)
Lemma slice_to_string_other_term_not_rejected :
  existsb (fun t => negb (int_or_slice t)) (as_tuple (PyTuple [PyEllipsis; PyInt 0]))
    = true /\
  slice_to_string (PyTuple [PyEllipsis; PyInt 0]) = Ok "0" /\
  ~ (exists e, slice_to_string (PyTuple [PyEllipsis; PyInt 0]) = Raise e) /\
  snd (C2Array.__getitem__ (net := container_server) (engine := stub_blosc2)
         (PyTuple [PyEllipsis; PyInt 0]) (stub_handle, []))
  = (stub_handle, [fetch_request stub_handle "0"]).
Proof.
  split; [reflexivity|]. split; [reflexivity|]. split; [|reflexivity].
  intros [e He]. discriminate He.
Qed.

Lemma terms_parts_replace (before after : list pyobj) (x y : pyobj) :
  term_part x = term_part y ->
  terms_parts (before ++ x :: after) = terms_parts (before ++ y :: after).
Proof.
  intros Hxy. induction before as [|t before IH]; cbn [app terms_parts].
  - rewrite Hxy. reflexivity.
  - rewrite IH. reflexivity.
Qed.

Lemma slice_to_string_replace (before after : list pyobj) (x y : pyobj) :
  term_part x = term_part y ->
  slice_to_string (PyTuple (before ++ x :: after))
  = slice_to_string (PyTuple (before ++ y :: after)).
Proof.
  intros Hxy. rewrite !slice_to_string_parts. cbn [as_tuple].
  rewrite (terms_parts_replace before after x y Hxy).
  replace (select_everything (PyTuple (before ++ x :: after))) with false
    by (destruct before; reflexivity).
  replace (select_everything (PyTuple (before ++ y :: after))) with false
    by (destruct before; reflexivity).
  reflexivity.
Qed.

(** C10, as stated, fails: with the integer [m] of 4301 digits,
    [slice(m, 0)] is not encoded as ["m:"]; the f-string of line 62
    raises the [ValueError] of [str]. *)
Lemma slice_to_string_zero_stop_huge_start :
  slice_to_string (slice2 (PyInt huge_int) (PyInt 0)) = Raise str_limit_error /\
  slice_to_string (slice2 (PyInt huge_int) (PyInt 0))
    <> Ok (decimal huge_int +:+ ":").
Proof.
  assert (slice_to_string (slice2 (PyInt huge_int) (PyInt 0))
          = Raise str_limit_error) as Henc.
  { rewrite slice_to_string_parts. cbn [select_everything is_None py_eq orb].
    unfold slice2. cbn [as_tuple terms_parts term_part isinstance_int].
    cbn [py_in existsb py_eq orb negb].
    assert (or_empty (PyInt huge_int) = Some (PyInt huge_int)) as ->
      by (vm_compute; reflexivity).
    cbn [format_field py_str]. rewrite str_int_huge. reflexivity. }
  split; [exact Henc|]. rewrite Henc. discriminate.
Qed.

(** C10, amended: a range term whose start bound is the integer 0 is
    rendered like one whose start is unset, so [slice(0, n)] and
    [slice(None, n)] have the same outcome for every integer [n]; a stop
    bound equal to 0 is rendered like an unset stop as well, so
    [slice(m, 0)] and [slice(m, None)] have the same outcome for every
    integer [m].  The same holds for a range term at any position of a
    tuple.  For [n] and [m] of at most 4300 digits, [slice(0, n)] is
    encoded as a colon followed by the rendering of [n], and [slice(m, 0)]
    as the rendering of [m] followed by a colon (["m:"] for a non-zero
    [m], [":"] for [m = 0]). *)
Theorem slice_to_string_zero_bound (n m : Z) (start stop step : pyobj)
    (before after : list pyobj) :
  slice_to_string (slice2 (PyInt 0) (PyInt n))
  = slice_to_string (slice2 PyNone (PyInt n)) /\
  slice_to_string (slice2 (PyInt m) (PyInt 0))
  = slice_to_string (slice2 (PyInt m) PyNone) /\
  slice_to_string (PyTuple (before ++ PySlice (PyInt 0) stop step :: after))
  = slice_to_string (PyTuple (before ++ PySlice PyNone stop step :: after)) /\
  slice_to_string (PyTuple (before ++ PySlice start (PyInt 0) step :: after))
  = slice_to_string (PyTuple (before ++ PySlice start PyNone step :: after)) /\
  ((int_digits n <=? int_max_str_digits) = true ->
   slice_to_string (slice2 (PyInt 0) (PyInt n))
   = Ok (":" +:+ (if n =? 0 then "" else decimal n))) /\
  ((int_digits m <=? int_max_str_digits) = true ->
   slice_to_string (slice2 (PyInt m) (PyInt 0))
   = Ok ((if m =? 0 then "" else decimal m) +:+ ":")).
Proof.
  split; [rewrite !slice_to_string_parts; reflexivity|].
  split; [rewrite !slice_to_string_parts; reflexivity|].
  split; [apply slice_to_string_replace; reflexivity|].
  split; [apply slice_to_string_replace; reflexivity|].
  split; intros Hdigits.
  - rewrite slice_to_string_spec
      by (cbn [slice2 ints_within_limit andb]; rewrite Hdigits; reflexivity).
    cbn -[decimal bound_text]. unfold bound_text. cbn -[decimal].
    destruct (n =? 0); reflexivity.
  - rewrite slice_to_string_spec
      by (cbn [slice2 ints_within_limit andb]; rewrite Hdigits; reflexivity).
    cbn -[decimal bound_text]. unfold bound_text. cbn -[decimal].
    destruct (m =? 0); reflexivity.
Qed.

Lemma slice_to_string_zero_bound_witness :
  slice_to_string (slice2 (PyInt 0) (PyInt 7)) = Ok ":7" /\
  slice_to_string (slice2 (PyInt 5) (PyInt 0)) = Ok "5:".
Proof.
  destruct (slice_to_string_zero_bound 7 5 PyNone PyNone PyNone [] [])
    as [_ [_ [_ [_ [Hstart Hstop]]]]].
  split; [apply Hstart | apply Hstop]; reflexivity.
Defined.

Example slice_to_string_zero_stop :
  slice_to_string (slice2 (PyInt 5) (PyInt 0)) = Ok "5:".
Proof. vm_compute. reflexivity. Qed.

Example slice_to_string_zero_start_open_stop :
  slice_to_string (slice2 (PyInt 0) PyNone) = Ok ":" /\
  slice_to_string (slice2 PyNone PyNone) = Ok "".
Proof. split; reflexivity. Qed.

(** ** Running the HTTP helpers *)

Section Handle.
Context {net : Httpx} {engine : Blosc2}.

Lemma cookie_headers_spec (auth_cookie : option string) :
  (if str_truthy auth_cookie then
     Some (<["Cookie" := default "" auth_cookie]>
             (if dict_truthy None then default ∅ None else ∅))
   else None) = cookie_headers auth_cookie.
Proof.
  destruct auth_cookie as [cookie|]; [|reflexivity].
  cbn. destruct (String.eqb cookie ""); cbn; [reflexivity|].
  rewrite insert_empty. reflexivity.
Qed.

(** [_xget] without caller headers issues exactly one request and
    returns the checked response. *)
Lemma _xget_run (url : string) (params : option (gmap string string))
    (timeout : Z) (auth_cookie : option string) (log : list request) :
  let req := mkRequest url params (cookie_headers auth_cookie) timeout in
  _xget url params None timeout auth_cookie log
  = (checked_response req log, log ++ [req]).
Proof.
  intros req. unfold _xget. rewrite cookie_headers_spec. fold req.
  unfold bind, httpx_get_call, lift, ret, checked_response.
  destruct (httpx_get req log) as [response|e]; [|reflexivity].
  destruct (raise_for_status response); reflexivity.
Qed.

Lemma fetch_data_run (path sub_url : string)
    (params : option (gmap string string)) (auth_cookie : option string)
    (log : list request) :
  let req := mkRequest (sub_url +:+ "api/fetch/" +:+ path) params
               (cookie_headers auth_cookie) 15 in
  fetch_data path sub_url params auth_cookie log
  = (match checked_response req log with
     | Ok response => decode (content response)
     | Raise e => Raise e
     end, log ++ [req]).
Proof.
  intros req. unfold fetch_data, bind. rewrite _xget_run. fold req.
  destruct (checked_response req log) as [response|e]; [|reflexivity].
  unfold try_except, lift, ret, decode, format_error.
  destruct (decompress2 (content response)) as [data|e]; [reflexivity|].
  destruct (existsb _ _); [|reflexivity].
  destruct (ndarray_from_cframe (content response)) as [arr|e']; [|reflexivity].
  destruct (extract_all arr); reflexivity.
Qed.

Lemma get_run (url : string) (auth_cookie : option string)
    (log : list request) :
  let req := mkRequest url None (cookie_headers auth_cookie) 15 in
  get url None None 15 None auth_cookie log
  = (match checked_response req log with
     | Ok response => response_json response
     | Raise e => Raise e
     end, log ++ [req]).
Proof.
  intros req. unfold get, bind. rewrite _xget_run. fold req.
  destruct (checked_response req log) as [response|e]; [|reflexivity].
  unfold lift, ret. destruct (response_json response); reflexivity.
Qed.

(** The constructor: one request to the info endpoint; an instance
    holding the decoded body, or the exception of the request or of the
    JSON decoding. *)
Lemma init_run (path sub_url : string) (auth_cookie : option string)
    (log : list request) :
  let req := info_request path sub_url auth_cookie in
  C2Array.__init__ path sub_url auth_cookie log
  = (match checked_response req log with
     | Ok response =>
         match response_json response with
         | Ok doc => Ok (C2Array.mk path sub_url auth_cookie doc)
         | Raise e => Raise e
         end
     | Raise e => Raise e
     end, log ++ [req]).
Proof.
  intros req. unfold C2Array.__init__, bind. rewrite get_run.
  fold (info_request path sub_url auth_cookie). fold req.
  destruct (checked_response req log) as [response|e]; [|reflexivity].
  destruct (response_json response); reflexivity.
Qed.

(** Indexing: nothing is sent when the encoder raises; otherwise one
    request to the fetch endpoint, whose checked response is decoded. *)
Lemma getitem_run (self : C2Array.t) (log : list request) (expr : pyobj) :
  C2Array.__getitem__ expr (self, log)
  = match slice_to_string expr with
    | Raise e => (Raise e, (self, log))
    | Ok wire =>
        (match checked_response (fetch_request self wire) log with
         | Ok response => decode (content response)
         | Raise e => Raise e
         end, (self, log ++ [fetch_request self wire]))
    end.
Proof.
  unfold C2Array.__getitem__, bind, lift.
  destruct (slice_to_string expr) as [wire|e]; [|reflexivity].
  unfold C2Array.attr, C2Array.call, ret. cbn [fst snd].
  rewrite fetch_data_run. unfold fetch_request.
  destruct (checked_response _ log) as [response|e]; [|reflexivity].
  destruct (decode (content response)); reflexivity.
Qed.

(** The accessors read the cached metadata and leave instance and log
    as they are. *)
Lemma meta_tuple_run (key : string) (self : C2Array.t) (log : list request) :
  C2Array.meta_tuple key (self, log)
  = (cached_tuple (C2Array.meta self) key, (self, log)).
Proof.
  unfold C2Array.meta_tuple, cached_tuple, bind, lift, C2Array.attr. cbn [fst].
  destruct (json_subscript _ key); reflexivity.
Qed.

Lemma dtype_run (self : C2Array.t) (log : list request) :
  C2Array.dtype (self, log)
  = (json_subscript (C2Array.meta self) "dtype", (self, log)).
Proof. reflexivity. Qed.

End Handle.

(** ** The handle [C2Array] *)

Lemma json_subscript_missing (doc : json) (key : string) :
  missing_field doc key = true ->
  json_subscript doc key = Raise (mkExn KeyError key).
Proof.
  destruct doc as [| | | | |fields]; try discriminate. cbn.
  induction fields as [|kv rest IH]; [reflexivity|].
  cbn. destruct (String.eqb (fst kv) key); [discriminate|]. exact IH.
Qed.

Section HandleProperties.
Context {net : Httpx} {engine : Blosc2}.

Lemma select_everything_tuple_iff (items : list pyobj) :
  select_everything (PyTuple items) = true <-> items = [].
Proof.
  rewrite select_everything_iff. split.
  - intros [H | [H | H]]; try discriminate H. injection H as ->. reflexivity.
  - intros ->. auto.
Qed.


(** C5, amended: the encoder raises nothing but the [IndexError] of line
    60 and the [ValueError] that [str] raises for an integer of more than
    4300 digits, and whenever it raises, indexing the handle raises the
    same exception before any request is issued.  A term that is neither
    an integer nor a range raises nothing and contributes nothing to the
    wire string.  When no integer of the expression has more than 4300
    digits, the encoder raises exactly when the expression contains a
    range term whose step is set and not equal to one, and then the
    [IndexError]; without such a term the encoding succeeds and the
    request is issued. *)
Theorem slice_to_string_raises_only_for_step (self : C2Array.t)
    (log : list request) (e : pyobj) :
  (forall x, slice_to_string e = Raise x ->
             (x = step_error \/ x = str_limit_error) /\
             C2Array.__getitem__ e (self, log) = (Raise x, (self, log))) /\
  (forall items,
     slice_to_string (PyTuple items)
     = slice_to_string (PyTuple (List.filter int_or_slice items))) /\
  (ints_within_limit e = true ->
   (forall x, slice_to_string e = Raise x <->
              existsb non_unit_step_term (as_tuple e) = true /\ x = step_error) /\
   (if existsb non_unit_step_term (as_tuple e)
    then C2Array.__getitem__ e (self, log) = (Raise step_error, (self, log))
    else exists wire,
           slice_to_string e = Ok wire /\
           snd (C2Array.__getitem__ e (self, log))
           = (self, log ++ [fetch_request self wire]))).
Proof.
  split; [|split].
  - intros x Henc. split.
    + rewrite slice_to_string_parts in Henc.
      destruct (select_everything e); [discriminate|].
      destruct (terms_parts (as_tuple e)) eqn:Hparts; [discriminate|].
      injection Henc as <-. apply (terms_parts_error _ _ Hparts).
    + rewrite getitem_run, Henc. reflexivity.
  - intros items. rewrite !slice_to_string_parts. cbn [as_tuple].
    rewrite filter_terms_parts.
    destruct (select_everything (PyTuple items)) eqn:Hall.
    + apply select_everything_tuple_iff in Hall. subst items. reflexivity.
    + destruct (select_everything (PyTuple (List.filter _ items))) eqn:Hall';
        [|reflexivity].
      apply select_everything_tuple_iff in Hall'.
      rewrite (filter_terms_nil items Hall'). reflexivity.
  - intros Hlimit. split.
    + intros x. rewrite (slice_to_string_spec e Hlimit).
      destruct (existsb non_unit_step_term (as_tuple e)) eqn:Hbad.
      * rewrite (non_unit_step_not_everything e Hbad). split.
        -- intros [= <-]. auto.
        -- intros [_ ->]. reflexivity.
      * destruct (select_everything e); split;
          try discriminate; intros [? _]; discriminate.
    + rewrite getitem_run, (slice_to_string_spec e Hlimit).
      destruct (existsb non_unit_step_term (as_tuple e)) eqn:Hbad.
      * rewrite (non_unit_step_not_everything e Hbad). reflexivity.
      * destruct (select_everything e); eauto.
Qed.

(** C7, amended: indexing a handle with a valid expression in which no
    integer has more than 4300 digits issues exactly one request: a GET
    of [{sub_url}api/fetch/{path}] whose parameter [slice_] is the
    encoded wire string and whose headers hold the cookie when one is
    given and is not the empty string (an empty cookie is sent like no
    cookie).  A transport error of that request, and the error that
    [raise_for_status] raises for a status that is not a success, is what
    the call raises, unchanged. *)
Theorem getitem_issues_one_request (self : C2Array.t) (log : list request)
    (expr : pyobj) :
  valid_expr expr = true ->
  ints_within_limit expr = true ->
  exists wire,
    slice_to_string expr = Ok wire /\
    snd (C2Array.__getitem__ expr (self, log))
    = (self, log ++ [fetch_request self wire]) /\
    req_url (fetch_request self wire)
    = C2Array.sub_url self +:+ "api/fetch/" +:+ C2Array.path self /\
    req_params (fetch_request self wire) = Some {["slice_" := wire]} /\
    req_headers (fetch_request self wire)
    = match C2Array.auth_cookie self with
      | Some cookie =>
          if String.eqb cookie "" then None else Some {["Cookie" := cookie]}
      | None => None
      end /\
    (forall e, httpx_get (fetch_request self wire) log = Raise e ->
               fst (C2Array.__getitem__ expr (self, log)) = Raise e) /\
    (forall response e,
       httpx_get (fetch_request self wire) log = Ok response ->
       raise_for_status response = Raise e ->
       fst (C2Array.__getitem__ expr (self, log)) = Raise e).
Proof.
  intros Hv Hlimit.
  destruct (valid_expr_encodes expr Hv Hlimit) as [wire [Henc _]].
  exists wire. rewrite getitem_run, Henc. cbn [fst snd].
  repeat split.
  - intros e He. unfold checked_response. rewrite He. reflexivity.
  - intros response e Hresp He. unfold checked_response.
    rewrite Hresp, He. reflexivity.
Qed.

(** C1, amended: when the frame interpretation of the payload raises a
    [ValueError] or a [RuntimeError], the payload is decoded as an array
    container and the whole decoded array is extracted, by [data[:]] when
    it is one-dimensional and by [data[()]] otherwise; the requested
    index expression is not applied to the decoded array. *)
Theorem getitem_container_fallback (self : C2Array.t) (log : list request)
    (expr : pyobj) (wire : string) (response : Response) (e : exn)
    (arr : NDArray) :
  slice_to_string expr = Ok wire ->
  checked_response (fetch_request self wire) log = Ok response ->
  decompress2 (content response) = Raise e ->
  format_error e = true ->
  ndarray_from_cframe (content response) = Ok arr ->
  fst (C2Array.__getitem__ expr (self, log))
  = match (if ndim arr =? 1 then NDArray_getitem arr slice_None
           else NDArray_getitem arr (PyTuple [])) with
    | Ok data => Ok (Extracted data)
    | Raise e' => Raise e'
    end.
Proof.
  intros Henc Hresp Hframe Hcaught Hcontainer.
  rewrite getitem_run, Henc, Hresp. cbn [fst].
  unfold decode. rewrite Hframe, Hcaught, Hcontainer. reflexivity.
Qed.

(** C8, amended: when neither interpretation of the payload succeeds,
    the call raises the exception of the container interpretation,
    unchanged, if the frame interpretation raised a [ValueError] or a
    [RuntimeError], and the exception of the frame interpretation,
    unchanged, otherwise; no dedicated error is raised in its place.  The
    failure concerns that call only: the handle is left as it was. *)
Theorem getitem_decode_failure_propagates (self : C2Array.t)
    (log : list request) (expr : pyobj) (wire : string)
    (response : Response) (e1 e2 : exn) :
  slice_to_string expr = Ok wire ->
  checked_response (fetch_request self wire) log = Ok response ->
  decompress2 (content response) = Raise e1 ->
  ndarray_from_cframe (content response) = Raise e2 ->
  C2Array.__getitem__ expr (self, log)
  = (Raise (if format_error e1 then e2 else e1),
     (self, log ++ [fetch_request self wire])).
Proof.
  intros Henc Hresp Hframe Hcontainer.
  rewrite getitem_run, Henc, Hresp. unfold decode.
  rewrite Hframe, Hcontainer. destruct (format_error e1); reflexivity.
Qed.

(** C6, amended: when the metadata request succeeds and its body decodes
    as JSON, the construction succeeds and the handle holds that document
    as it is, whatever fields it has.  A field that is absent from the
    document makes the accessor of that field raise [KeyError] when it is
    read. *)
Theorem init_keeps_metadata_unvalidated (path sub_url : string)
    (auth_cookie : option string) (log : list request)
    (response : Response) (doc : json) :
  checked_response (info_request path sub_url auth_cookie) log = Ok response ->
  response_json response = Ok doc ->
  C2Array.__init__ path sub_url auth_cookie log
  = (Ok (C2Array.mk path sub_url auth_cookie doc),
     log ++ [info_request path sub_url auth_cookie]) /\
  (forall log',
     let self := C2Array.mk path sub_url auth_cookie doc in
     (missing_field doc "shape" = true ->
      C2Array.shape (self, log') = (Raise (mkExn KeyError "shape"), (self, log'))) /\
     (missing_field doc "chunks" = true ->
      C2Array.chunks (self, log') = (Raise (mkExn KeyError "chunks"), (self, log'))) /\
     (missing_field doc "blocks" = true ->
      C2Array.blocks (self, log') = (Raise (mkExn KeyError "blocks"), (self, log'))) /\
     (missing_field doc "dtype" = true ->
      C2Array.dtype (self, log') = (Raise (mkExn KeyError "dtype"), (self, log')))).
Proof.
  intros Hresp Hdoc. split.
  - rewrite init_run, Hresp, Hdoc. reflexivity.
  - intros log' self.
    unfold C2Array.shape, C2Array.chunks, C2Array.blocks.
    rewrite !meta_tuple_run, dtype_run. unfold cached_tuple.
    cbn [C2Array.meta self].
    repeat split; intros Hmiss; rewrite (json_subscript_missing _ _ Hmiss);
      reflexivity.
Qed.

(** C9: a call of [__getitem__], whether it returns or raises, leaves
    every attribute of the handle (path, base URL, cookie, metadata) as it
    was.  The accessors [shape], [chunks], [blocks], [ext_shape] and
    [dtype] return what the cached metadata holds and leave the handle
    and the request log untouched (nothing is sent); so after any
    [__getitem__] call they give what they gave before it. *)
Theorem getitem_leaves_handle_unchanged (self : C2Array.t)
    (log : list request) (expr : pyobj) :
  let after := snd (C2Array.__getitem__ expr (self, log)) in
  fst after = self /\
  (forall st : C2Array.t * list request,
     let meta := C2Array.meta (fst st) in
     C2Array.shape st = (cached_tuple meta "shape", st) /\
     C2Array.chunks st = (cached_tuple meta "chunks", st) /\
     C2Array.blocks st = (cached_tuple meta "blocks", st) /\
     C2Array.ext_shape st = (cached_tuple meta "ext_shape", st) /\
     C2Array.dtype st = (json_subscript meta "dtype", st)) /\
  fst (C2Array.shape after) = fst (C2Array.shape (self, log)) /\
  fst (C2Array.chunks after) = fst (C2Array.chunks (self, log)) /\
  fst (C2Array.blocks after) = fst (C2Array.blocks (self, log)) /\
  fst (C2Array.ext_shape after) = fst (C2Array.ext_shape (self, log)) /\
  fst (C2Array.dtype after) = fst (C2Array.dtype (self, log)).
Proof.
  intros after.
  assert (exists log', after = (self, log')) as [log' ->].
  { subst after. rewrite getitem_run.
    destruct (slice_to_string expr); eauto. }
  split; [reflexivity|]. split.
  - intros [self' log''] meta.
    unfold C2Array.shape, C2Array.chunks, C2Array.blocks, C2Array.ext_shape.
    rewrite !meta_tuple_run, dtype_run. auto.
  - unfold C2Array.shape, C2Array.chunks, C2Array.blocks, C2Array.ext_shape.
    rewrite !meta_tuple_run, !dtype_run. auto.
Qed.

End HandleProperties.

(** ** Concrete runs against the stub server and the stub engine *)



Lemma slice_to_string_raises_only_for_step_witness :
  (forall x,
     slice_to_string (PyTuple [PyEllipsis; PyInt 0]) = Raise x <->
     existsb non_unit_step_term (as_tuple (PyTuple [PyEllipsis; PyInt 0])) = true /\
     x = step_error) /\
  exists wire,
    slice_to_string (PyTuple [PyEllipsis; PyInt 0]) = Ok wire /\
    snd (C2Array.__getitem__ (net := container_server) (engine := stub_blosc2)
           (PyTuple [PyEllipsis; PyInt 0]) (stub_handle, []))
    = (stub_handle, [] ++ [fetch_request stub_handle wire]).
Proof.
  destruct (slice_to_string_raises_only_for_step
              (net := container_server) (engine := stub_blosc2)
              stub_handle [] (PyTuple [PyEllipsis; PyInt 0]))
    as [_ [_ Hlimit]].
  destruct (Hlimit eq_refl) as [Hraise Hrequest].
  split; [exact Hraise | exact Hrequest].
Defined.

(** C7, as stated, fails: the integer [m] of 4301 digits is a valid
    index expression, yet indexing the handle with it raises the
    [ValueError] of [str(m)] and issues no request. *)
Lemma getitem_huge_int_sends_nothing :
  valid_expr (PyInt huge_int) = true /\
  C2Array.__getitem__ (net := container_server) (engine := stub_blosc2)
    (PyInt huge_int) (stub_handle, [])
  = (Raise str_limit_error, (stub_handle, [])).
Proof.
  split; [reflexivity|].
  rewrite getitem_run, slice_to_string_huge_int. reflexivity.
Qed.

Lemma getitem_issues_one_request_witness :
  snd (C2Array.__getitem__ (net := constant_server 404 [] JNull)
         (engine := stub_blosc2) (slice2 (PyInt 1) (PyInt 3)) (stub_handle, []))
  = (stub_handle, [fetch_request stub_handle "1:3"]) /\
  req_url (fetch_request stub_handle "1:3")
  = "http://host/api/fetch/root/a.b2nd" /\
  req_params (fetch_request stub_handle "1:3") = Some {["slice_" := "1:3"]} /\
  req_headers (fetch_request stub_handle "1:3") = Some {["Cookie" := "token"]} /\
  fst (C2Array.__getitem__ (net := constant_server 404 [] JNull)
         (engine := stub_blosc2) (slice2 (PyInt 1) (PyInt 3)) (stub_handle, []))
  = Raise (mkExn HTTPStatusError "404").
Proof.
  destruct (getitem_issues_one_request
              (net := constant_server 404 [] JNull) (engine := stub_blosc2)
              stub_handle [] (slice2 (PyInt 1) (PyInt 3)) eq_refl eq_refl)
    as [wire [Henc [Hlog [Hurl [Hparams [Hheaders [_ Hstatus]]]]]]].
  assert (wire = "1:3") as -> by (vm_compute in Henc; congruence).
  split; [exact Hlog|]. split; [exact Hurl|]. split; [exact Hparams|].
  split; [exact Hheaders|].
  apply (Hstatus (mkStubResponse 404 [] (Ok JNull))); reflexivity.
Defined.

(** A status that is not a success: the call raises the error of
    [raise_for_status], after one request. *)
Example getitem_not_found :
  C2Array.__getitem__ (net := constant_server 404 [] JNull)
    (engine := stub_blosc2) (PyInt 5) (stub_handle, [])
  = (Raise (mkExn HTTPStatusError "404"),
     (stub_handle, [fetch_request stub_handle "5"])).
Proof. reflexivity. Qed.

(** C1, as stated, fails: for the request [slice(1, 3)] the stub server
    answers with the container of [10, 20, 30, 40, 50]; the frame
    interpretation raises a [ValueError], and the call returns the whole
    array, not the sub-region [20, 30] that applying the requested
    expression to the decoded array gives. *)
Lemma getitem_fallback_ignores_expression :
  decompress2 (Blosc2 := stub_blosc2) container_payload
  = Raise (mkExn ValueError "not a compressed frame") /\
  format_error (mkExn ValueError "not a compressed frame") = true /\
  fst (C2Array.__getitem__ (net := container_server) (engine := stub_blosc2)
         (slice2 (PyInt 1) (PyInt 3)) (stub_handle, []))
  = Ok (Extracted (engine := stub_blosc2)
          (mkStubArray [5] [10; 20; 30; 40; 50])) /\
  spec_fallback (engine := stub_blosc2) (slice2 (PyInt 1) (PyInt 3))
    container_payload
  = Ok (mkStubArray [2] [20; 30]) /\
  fst (C2Array.__getitem__ (net := container_server) (engine := stub_blosc2)
         (slice2 (PyInt 1) (PyInt 3)) (stub_handle, []))
  <> match spec_fallback (engine := stub_blosc2) (slice2 (PyInt 1) (PyInt 3))
             container_payload with
     | Ok data => Ok (Extracted (engine := stub_blosc2) data)
     | Raise e => Raise e
     end.
Proof. repeat split. discriminate. Qed.

Lemma getitem_container_fallback_witness :
  fst (C2Array.__getitem__ (net := container_server) (engine := stub_blosc2)
         (slice2 (PyInt 1) (PyInt 3)) (stub_handle, []))
  = match (if ndim (Blosc2 := stub_blosc2)
                (mkStubArray [5] [10; 20; 30; 40; 50]) =? 1
           then NDArray_getitem (Blosc2 := stub_blosc2)
                  (mkStubArray [5] [10; 20; 30; 40; 50]) slice_None
           else NDArray_getitem (Blosc2 := stub_blosc2)
                  (mkStubArray [5] [10; 20; 30; 40; 50]) (PyTuple [])) with
    | Ok data => Ok (Extracted (engine := stub_blosc2) data)
    | Raise e' => Raise e'
    end.
Proof.
  apply (getitem_container_fallback
           (net := container_server) (engine := stub_blosc2)
           stub_handle [] (slice2 (PyInt 1) (PyInt 3)) "1:3"
           (mkStubResponse 200 container_payload (Ok JNull))
           (mkExn ValueError "not a compressed frame")
           (mkStubArray [5] [10; 20; 30; 40; 50]));
    reflexivity.
Defined.

(** C8, as stated, fails: for an empty payload both interpretations
    raise, and the call raises the [RuntimeError] of the container
    interpretation itself, which is no [DecodeError]. *)
Lemma getitem_raises_underlying_exception :
  decompress2 (Blosc2 := stub_blosc2) []
  = Raise (mkExn ValueError "not a compressed frame") /\
  ndarray_from_cframe (Blosc2 := stub_blosc2) []
  = Raise (mkExn RuntimeError "not a container") /\
  fst (C2Array.__getitem__ (net := garbage_server) (engine := stub_blosc2)
         (PyInt 5) (stub_handle, []))
  = Raise (mkExn RuntimeError "not a container") /\
  issubclass RuntimeError DecodeError = false.
Proof. repeat split. Qed.

Lemma getitem_decode_failure_propagates_witness :
  C2Array.__getitem__ (net := garbage_server) (engine := stub_blosc2)
    (PyInt 5) (stub_handle, [])
  = (Raise (if format_error (mkExn ValueError "not a compressed frame")
            then mkExn RuntimeError "not a container"
            else mkExn ValueError "not a compressed frame"),
     (stub_handle, [] ++ [fetch_request stub_handle "5"])).
Proof.
  apply (getitem_decode_failure_propagates
           (net := garbage_server) (engine := stub_blosc2)
           stub_handle [] (PyInt 5) "5"
           (mkStubResponse 200 [] (Ok JNull))
           (mkExn ValueError "not a compressed frame")
           (mkExn RuntimeError "not a container"));
    reflexivity.
Defined.

(** C6, as stated, fails: the server answers the metadata request with
    success and a document without any field; the construction returns a
    handle and raises nothing. *)
Lemma init_accepts_metadata_without_fields :
  missing_field (JObj []) "shape" = true /\
  missing_field (JObj []) "chunks" = true /\
  missing_field (JObj []) "blocks" = true /\
  missing_field (JObj []) "dtype" = true /\
  fst (C2Array.__init__ (net := bare_info_server) "root/a.b2nd" "http://host/"
         None [])
  = Ok (C2Array.mk "root/a.b2nd" "http://host/" None (JObj [])) /\
  ~ (exists msg,
       fst (C2Array.__init__ (net := bare_info_server) "root/a.b2nd"
              "http://host/" None [])
       = Raise (mkExn MalformedMetadataError msg)).
Proof. repeat split. intros [msg Hmsg]. discriminate Hmsg. Qed.

Lemma init_keeps_metadata_unvalidated_witness :
  C2Array.__init__ (net := bare_info_server) "root/a.b2nd" "http://host/" None []
  = (Ok (C2Array.mk "root/a.b2nd" "http://host/" None (JObj [])),
     [] ++ [info_request "root/a.b2nd" "http://host/" None]) /\
  (forall log',
     let self := C2Array.mk "root/a.b2nd" "http://host/" None (JObj []) in
     C2Array.shape (self, log') = (Raise (mkExn KeyError "shape"), (self, log')) /\
     C2Array.chunks (self, log') = (Raise (mkExn KeyError "chunks"), (self, log')) /\
     C2Array.blocks (self, log') = (Raise (mkExn KeyError "blocks"), (self, log')) /\
     C2Array.dtype (self, log') = (Raise (mkExn KeyError "dtype"), (self, log'))).
Proof.
  destruct (init_keeps_metadata_unvalidated (net := bare_info_server)
              "root/a.b2nd" "http://host/" None []
              (mkStubResponse 200 [] (Ok (JObj []))) (JObj [])
              eq_refl eq_refl) as [Hinit Hread].
  split; [exact Hinit|].
  intros log' self. destruct (Hread log') as [Hs [Hc [Hb Hd]]].
  split; [apply Hs; reflexivity|].
  split; [apply Hc; reflexivity|].
  split; [apply Hb; reflexivity | apply Hd; reflexivity].
Defined.

(** * Further properties of the module *)

(** ** [_xget] and [get] *)

Section Requests.
Context {net : Httpx}.

(** The request that [_xget] sends, for any caller headers. *)
Lemma _xget_run_headers (url : string)
    (params headers : option (gmap string string)) (timeout : Z)
    (auth_cookie : option string) (log : list request) :
  let req :=
    mkRequest url params
      (if str_truthy auth_cookie then
         Some (<["Cookie" := default "" auth_cookie]>
                 (if dict_truthy headers then default ∅ headers else ∅))
       else headers) timeout in
  _xget url params headers timeout auth_cookie log
  = (checked_response req log, log ++ [req]).
Proof.
  intros req. unfold _xget. fold req.
  unfold bind, httpx_get_call, lift, ret, checked_response.
  destruct (httpx_get req log) as [response|e]; [|reflexivity].
  destruct (raise_for_status response); reflexivity.
Qed.

Lemma dict_truthy_default (headers : option (gmap string string)) :
  (if dict_truthy headers then default ∅ headers else ∅) = default ∅ headers.
Proof.
  destruct headers as [h|]; [|reflexivity]. cbn.
  destruct (bool_decide (h = ∅)) eqn:Hempty; [|reflexivity].
  apply bool_decide_eq_true in Hempty. subst h. reflexivity.
Qed.

(** X1: [_xget] sends exactly one request, with the URL, parameters and
    timeout it was given.  With a cookie that is not empty, the request
    carries the caller's headers with [Cookie] set to the cookie (an
    existing [Cookie] entry is replaced, every other entry is kept);
    without a cookie, or with the empty string, the caller's headers are
    passed on as they are. *)
Theorem xget_request_headers (url : string)
    (params headers : option (gmap string string)) (timeout : Z)
    (auth_cookie : option string) (log : list request) :
  exists req,
    snd (_xget url params headers timeout auth_cookie log) = log ++ [req] /\
    req_url req = url /\ req_params req = params /\
    req_timeout req = timeout /\
    match auth_cookie with
    | Some cookie =>
        if String.eqb cookie "" then req_headers req = headers
        else exists sent,
               req_headers req = Some sent /\
               sent !! "Cookie" = Some cookie /\
               forall key, key <> "Cookie" ->
                           sent !! key = default ∅ headers !! key
    | None => req_headers req = headers
    end.
Proof.
  rewrite _xget_run_headers. eexists. cbn [snd].
  split; [reflexivity|]. cbn [req_url req_params req_timeout req_headers].
  repeat split.
  destruct auth_cookie as [cookie|]; [|reflexivity]. cbn [str_truthy].
  destruct (String.eqb cookie ""); cbn [negb]; [reflexivity|].
  eexists. split; [reflexivity|]. rewrite dict_truthy_default.
  split; [apply lookup_insert_eq|].
  intros key Hkey. apply lookup_insert_ne. congruence.
Qed.

(** X2: [_xget] returns a response only if [httpx.get] returned it for
    the request sent and [raise_for_status] accepted it; when [_xget]
    raises, the exception is the one of [httpx.get] or the one of
    [raise_for_status], unchanged. *)
Theorem xget_returns_checked_response (url : string)
    (params headers : option (gmap string string)) (timeout : Z)
    (auth_cookie : option string) (log : list request) :
  exists req,
    snd (_xget url params headers timeout auth_cookie log) = log ++ [req] /\
    (forall response,
       fst (_xget url params headers timeout auth_cookie log) = Ok response <->
       httpx_get req log = Ok response /\ raise_for_status response = Ok tt) /\
    (forall e,
       fst (_xget url params headers timeout auth_cookie log) = Raise e <->
       httpx_get req log = Raise e \/
       exists response, httpx_get req log = Ok response /\
                        raise_for_status response = Raise e).
Proof.
  rewrite _xget_run_headers. eexists. cbn [fst snd].
  split; [reflexivity|]. unfold checked_response.
  match goal with |- context [httpx_get ?r log] => set (req := r) end.
  destruct (httpx_get req log) as [response|e0].
  - destruct (raise_for_status response) as [[]|e0] eqn:Hstatus; split.
    + intros r. split.
      * intros [= <-]. auto.
      * intros [[= <-] _]. reflexivity.
    + intros e. split; [discriminate|].
      intros [Hget | [r [[= <-] Hraise]]]; congruence.
    + intros r. split; [discriminate|].
      intros [[= <-] Hok]. congruence.
    + intros e. split.
      * intros [= <-]. right. eauto.
      * intros [Hget | [r [[= <-] Hraise]]]; congruence.
  - split.
    + intros r. split; [discriminate | intros [Hget _]; discriminate Hget].
    + intros e. split.
      * intros [= <-]. left. reflexivity.
      * intros [[= <-] | [r [Hget _]]]; [reflexivity | discriminate Hget].
Qed.

(** The outcome of [get], for any arguments. *)
Lemma get_run_general (url : string)
    (params headers : option (gmap string string)) (timeout : Z)
    (model : option (json -> result json)) (auth_cookie : option string)
    (log : list request) :
  exists req,
    get url params headers timeout model auth_cookie log
    = (match checked_response req log with
       | Ok response =>
           match response_json response with
           | Ok doc =>
               match model with
               | None => Ok doc
               | Some model => model doc
               end
           | Raise e => Raise e
           end
       | Raise e => Raise e
       end, log ++ [req]) /\
    snd (_xget url params headers timeout auth_cookie log) = log ++ [req].
Proof.
  eexists. unfold get, bind. rewrite _xget_run_headers. cbn [snd].
  split; [|reflexivity].
  match goal with |- context [checked_response ?r log] => set (req := r) end.
  destruct (checked_response req log) as [response|e]; [|reflexivity].
  unfold lift, ret. destruct (response_json response) as [doc|e]; [|reflexivity].
  destruct model; reflexivity.
Qed.

(** X3: [get] sends one request whatever the outcome, and its failures
    come in the order of the code: a transport error or an error status
    is raised even when the body is no JSON, and an error of the JSON
    decoding is raised without the model being applied; with a checked
    response and a decoded body, the result is the document, or what the
    model makes of it. *)
Theorem get_error_precedence (url : string)
    (params headers : option (gmap string string)) (timeout : Z)
    (model : option (json -> result json)) (auth_cookie : option string)
    (log : list request) :
  exists req,
    snd (get url params headers timeout model auth_cookie log) = log ++ [req] /\
    (forall e, checked_response req log = Raise e ->
               fst (get url params headers timeout model auth_cookie log)
               = Raise e) /\
    (forall response e,
       checked_response req log = Ok response ->
       response_json response = Raise e ->
       fst (get url params headers timeout model auth_cookie log) = Raise e) /\
    (forall response doc,
       checked_response req log = Ok response ->
       response_json response = Ok doc ->
       fst (get url params headers timeout model auth_cookie log)
       = match model with
         | None => Ok doc
         | Some model => model doc
         end).
Proof.
  destruct (get_run_general url params headers timeout model auth_cookie log)
    as [req [Hrun _]].
  exists req. rewrite Hrun. cbn [fst snd]. split; [reflexivity|].
  split; [|split].
  - intros e ->. reflexivity.
  - intros response e -> ->. reflexivity.
  - intros response doc -> ->. reflexivity.
Qed.

End Requests.

(** ** [fetch_data], the constructor and the accessors *)

Lemma json_subscript_unique (fields : list (string * json)) (key : string)
    (v : json) :
  NoDup (map fst fields) -> In (key, v) fields ->
  json_subscript (JObj fields) key = Ok v.
Proof.
  cbn [json_subscript]. induction fields as [|[k w] rest IH]; [contradiction|].
  cbn [map fst]. intros Hnodup Hin. apply NoDup_cons in Hnodup as [Hfresh Hrest].
  cbn [find fst]. destruct (String.eqb k key) eqn:Hk.
  - apply String.eqb_eq in Hk. subst k. destruct Hin as [[= <-] | Hin].
    + reflexivity.
    + exfalso. apply Hfresh. apply list_elem_of_In.
      apply (in_map fst rest (key, v)), Hin.
  - destruct Hin as [[= -> _] | Hin].
    + rewrite String.eqb_refl in Hk. discriminate Hk.
    + apply IH; assumption.
Qed.

Section FurtherHandle.
Context {net : Httpx} {engine : Blosc2}.

(** X4: when the payload of a checked response is a frame that
    [decompress2] accepts, [fetch_data] returns the decompressed bytes
    after its one request; what the container decoder would make of the
    payload plays no part. *)
Theorem fetch_data_frame (path sub_url : string)
    (params : option (gmap string string)) (auth_cookie : option string)
    (log : list request) (response : Response) (data : bytes) :
  let req := mkRequest (sub_url +:+ "api/fetch/" +:+ path) params
               (cookie_headers auth_cookie) 15 in
  checked_response req log = Ok response ->
  decompress2 (content response) = Ok data ->
  fetch_data path sub_url params auth_cookie log
  = (Ok (Decompressed data), log ++ [req]).
Proof.
  intros req Hresp Hframe. rewrite fetch_data_run. fold req.
  rewrite Hresp. unfold decode. rewrite Hframe. reflexivity.
Qed.

(** X5: when [decompress2] raises an exception that is neither a
    [ValueError] nor a [RuntimeError] (nor of a subclass of these),
    [fetch_data] raises that exception, whether or not the payload is a
    container that could be decoded. *)
Theorem fetch_data_uncaught (path sub_url : string)
    (params : option (gmap string string)) (auth_cookie : option string)
    (log : list request) (response : Response) (e : exn) :
  let req := mkRequest (sub_url +:+ "api/fetch/" +:+ path) params
               (cookie_headers auth_cookie) 15 in
  checked_response req log = Ok response ->
  decompress2 (content response) = Raise e ->
  format_error e = false ->
  fetch_data path sub_url params auth_cookie log = (Raise e, log ++ [req]).
Proof.
  intros req Hresp Hframe Hcaught. rewrite fetch_data_run. fold req.
  rewrite Hresp. unfold decode. rewrite Hframe, Hcaught. reflexivity.
Qed.

(** X6: the constructor sends exactly one request, the GET of
    [{sub_url}api/info/{path}].  It returns a handle exactly when that
    request is answered with a success status and a body that decodes as
    JSON, and the handle then holds the arguments and the decoded body;
    otherwise it raises the exception of the request or of the decoding,
    and no handle exists. *)
Theorem init_returns_handle_iff (path sub_url : string)
    (auth_cookie : option string) (log : list request) :
  let req := info_request path sub_url auth_cookie in
  snd (C2Array.__init__ path sub_url auth_cookie log) = log ++ [req] /\
  (forall self,
     fst (C2Array.__init__ path sub_url auth_cookie log) = Ok self <->
     exists response doc,
       checked_response req log = Ok response /\
       response_json response = Ok doc /\
       self = C2Array.mk path sub_url auth_cookie doc) /\
  (forall e,
     fst (C2Array.__init__ path sub_url auth_cookie log) = Raise e <->
     checked_response req log = Raise e \/
     exists response,
       checked_response req log = Ok response /\
       response_json response = Raise e).
Proof.
  intros req. rewrite init_run. fold req. cbn [fst snd].
  split; [reflexivity|].
  destruct (checked_response req log) as [response|e0].
  - destruct (response_json response) as [doc|e0] eqn:Hdoc; split.
    + intros self. split.
      * intros [= <-]. eauto.
      * intros [r [d [[= <-] [Hd ->]]]]. congruence.
    + intros e. split; [discriminate|].
      intros [Hc | [r [[= <-] Hd]]]; congruence.
    + intros self. split; [discriminate|].
      intros [r [d [[= <-] [Hd _]]]]. congruence.
    + intros e. split.
      * intros [= <-]. right. eauto.
      * intros [Hc | [r [[= <-] Hd]]]; congruence.
  - split.
    + intros self. split; [discriminate|].
      intros [r [d [Hc _]]]. discriminate Hc.
    + intros e. split.
      * intros [= <-]. left. reflexivity.
      * intros [[= <-] | [r [Hc _]]]; [reflexivity | discriminate Hc].
Qed.

(** X7: for a handle whose metadata is an object with unique keys, the
    accessor of a field returns the value that the object binds to the
    field's name, wherever the entry stands in the object: [shape],
    [chunks], [blocks] and [ext_shape] return [tuple] of that value,
    [dtype] the value itself; handle and request log are left as they
    are. *)
Theorem accessor_returns_field (self : C2Array.t) (log : list request)
    (fields : list (string * json)) :
  C2Array.meta self = JObj fields ->
  NoDup (map fst fields) ->
  (forall v, In ("shape", v) fields ->
             C2Array.shape (self, log) = (json_tuple v, (self, log))) /\
  (forall v, In ("chunks", v) fields ->
             C2Array.chunks (self, log) = (json_tuple v, (self, log))) /\
  (forall v, In ("blocks", v) fields ->
             C2Array.blocks (self, log) = (json_tuple v, (self, log))) /\
  (forall v, In ("ext_shape", v) fields ->
             C2Array.ext_shape (self, log) = (json_tuple v, (self, log))) /\
  (forall v, In ("dtype", v) fields ->
             C2Array.dtype (self, log) = (Ok v, (self, log))).
Proof.
  intros Hmeta Hnodup.
  unfold C2Array.shape, C2Array.chunks, C2Array.blocks, C2Array.ext_shape.
  rewrite !meta_tuple_run, dtype_run, Hmeta. unfold cached_tuple.
  repeat split; intros v Hin;
    rewrite (json_subscript_unique fields _ v Hnodup Hin); reflexivity.
Qed.

Lemma json_subscript_error (meta : json) (key : string) (e : exn) :
  json_subscript meta key = Raise e -> accessor_error meta key e.
Proof.
  unfold accessor_error.
  destruct meta as [| | | | |fields]; cbn; try (intros [= <-]; right; auto).
  induction fields as [|kv rest IH]; cbn.
  - intros [= <-]. left. auto.
  - destruct (String.eqb (fst kv) key); [discriminate | exact IH].
Qed.

Lemma json_subscript_found (meta : json) (key : string) (v : json) :
  json_subscript meta key = Ok v -> missing_field meta key = false.
Proof.
  destruct meta as [| | | | |fields]; cbn; try discriminate.
  induction fields as [|kv rest IH]; cbn; [discriminate|].
  destruct (String.eqb (fst kv) key); [reflexivity | exact IH].
Qed.

Lemma cached_tuple_error (meta : json) (key : string) (e : exn) :
  cached_tuple meta key = Raise e -> accessor_error meta key e.
Proof.
  unfold cached_tuple.
  destruct (json_subscript meta key) as [v|e0] eqn:Hsub.
  - intros Htuple. right. split; [|apply (json_subscript_found _ _ _ Hsub)].
    destruct v; cbn in Htuple; try discriminate Htuple;
      injection Htuple as <-; reflexivity.
  - intros [= <-]. apply json_subscript_error, Hsub.
Qed.

(** X8: an accessor raises nothing but a [KeyError] naming its field,
    which it raises exactly when the metadata is an object without that
    field, or a [TypeError], when the metadata is no object or the value
    of the field cannot be made a tuple. *)
Theorem accessor_raises_key_or_type_error (self : C2Array.t)
    (log : list request) (e : exn) :
  (fst (C2Array.shape (self, log)) = Raise e ->
   accessor_error (C2Array.meta self) "shape" e) /\
  (fst (C2Array.chunks (self, log)) = Raise e ->
   accessor_error (C2Array.meta self) "chunks" e) /\
  (fst (C2Array.blocks (self, log)) = Raise e ->
   accessor_error (C2Array.meta self) "blocks" e) /\
  (fst (C2Array.ext_shape (self, log)) = Raise e ->
   accessor_error (C2Array.meta self) "ext_shape" e) /\
  (fst (C2Array.dtype (self, log)) = Raise e ->
   accessor_error (C2Array.meta self) "dtype" e).
Proof.
  unfold C2Array.shape, C2Array.chunks, C2Array.blocks, C2Array.ext_shape.
  rewrite !meta_tuple_run, dtype_run. cbn [fst].
  repeat split; try apply cached_tuple_error. apply json_subscript_error.
Qed.

Lemma fetch_requests_same_target (self : C2Array.t) (exprs : list pyobj) :
  Forall (fun req =>
            req_url req
            = C2Array.sub_url self +:+ "api/fetch/" +:+ C2Array.path self /\
            req_headers req = cookie_headers (C2Array.auth_cookie self) /\
            req_timeout req = 15 /\
            exists wire, req_params req = Some {["slice_" := wire]})
         (fetch_requests self exprs).
Proof.
  induction exprs as [|expr rest IH]; [constructor|].
  cbn [fetch_requests]. destruct (slice_to_string expr) as [wire|e]; [|exact IH].
  constructor; [|exact IH]. cbn. eauto.
Qed.

(** X9: a caller that indexes the handle with a list of expressions,
    going on after every exception, gets one outcome per expression and
    leaves the handle as it was; the requests sent are, in order, the
    fetch requests of the expressions that the encoder accepts.  Nothing
    is cached: an expression that occurs twice is requested twice.  All
    these requests go to the one URL [{sub_url}api/fetch/{path}] with the
    handle's cookie and the timeout 15, and differ in the parameter
    [slice_] only. *)
Theorem getitem_each_requests (self : C2Array.t) (log : list request)
    (exprs : list pyobj) :
  length (fst (getitem_each exprs (self, log))) = length exprs /\
  snd (getitem_each exprs (self, log))
  = (self, log ++ fetch_requests self exprs) /\
  Forall (fun req =>
            req_url req
            = C2Array.sub_url self +:+ "api/fetch/" +:+ C2Array.path self /\
            req_headers req = cookie_headers (C2Array.auth_cookie self) /\
            req_timeout req = 15 /\
            exists wire, req_params req = Some {["slice_" := wire]})
         (fetch_requests self exprs).
Proof.
  split; [|split; [|apply fetch_requests_same_target]];
    revert log; induction exprs as [|expr rest IH]; intros log;
    try (cbn; rewrite ?app_nil_r; reflexivity);
    cbn [getitem_each fetch_requests]; rewrite getitem_run;
    destruct (slice_to_string expr) as [wire|e].
  - specialize (IH (log ++ [fetch_request self wire])).
    destruct (getitem_each rest _) as [outcomes st]. simpl in *.
    rewrite IH. reflexivity.
  - specialize (IH log).
    destruct (getitem_each rest _) as [outcomes st]. simpl in *.
    rewrite IH. reflexivity.
  - specialize (IH (log ++ [fetch_request self wire])).
    destruct (getitem_each rest _) as [outcomes st]. simpl in *.
    rewrite IH, <- app_assoc. reflexivity.
  - specialize (IH log).
    destruct (getitem_each rest _) as [outcomes st]. simpl in *.
    rewrite IH. reflexivity.
Qed.

End FurtherHandle.

(** ** More on the encoder [slice_to_string] *)

(** The decimal numeral of an integer reads back as that integer. *)
Lemma decimal_parses (n : Z) :
  NilZero.int_of_string (decimal n) = Some (Z.to_int n).
Proof.
  unfold decimal. apply NilZero.isi; destruct n as [|p|p]; cbn;
    try discriminate; intros [= Hnil];
    apply (Unsigned.to_uint_nonnil p Hnil).
Qed.

Lemma decimal_inj (n m : Z) : decimal n = decimal m -> n = m.
Proof.
  intros Heq. apply DecimalZ.to_int_inj.
  pose proof (decimal_parses n) as Hn. rewrite Heq, decimal_parses in Hn.
  congruence.
Qed.

Lemma all_digits_int_chars (s : string) :
  all_digits s = true -> string_forall int_char s = true.
Proof.
  induction s as [|c s IH]; [reflexivity|].
  cbn. rewrite !andb_true_iff. intros [Hc Hs].
  split; [|apply IH, Hs]. unfold int_char. rewrite Hc. reflexivity.
Qed.

Lemma decimal_chars (n : Z) : string_forall int_char (decimal n) = true.
Proof.
  destruct (decimal_INTEGER n) as [ds _ Hds | ds _ Hds];
    [apply all_digits_int_chars, Hds|].
  cbn. apply all_digits_int_chars, Hds.
Qed.

Lemma decimal_nonempty (n : Z) : decimal n <> "".
Proof. destruct (decimal_INTEGER n); [assumption | discriminate]. Qed.

(** A string splits in one way only into a run of characters of a class
    and a rest that does not begin with a character of the class. *)
Lemma append_split_unique (p : ascii -> bool) (x y s t : string) :
  string_forall p x = true -> string_forall p y = true ->
  match s with EmptyString => True | String c _ => p c = false end ->
  match t with EmptyString => True | String c _ => p c = false end ->
  x +:+ s = y +:+ t -> x = y /\ s = t.
Proof.
  revert y. induction x as [|c x IH]; intros y Hx Hy Hs Ht Heq.
  - destruct y as [|d y]; [split; [reflexivity | exact Heq]|].
    exfalso. change (s = String d (y +:+ t)) in Heq. subst s.
    cbn in Hy. apply andb_true_iff in Hy as [Hd _]. congruence.
  - destruct y as [|d y].
    + exfalso. change (String c (x +:+ s) = t) in Heq. subst t.
      cbn in Hx. apply andb_true_iff in Hx as [Hc _]. congruence.
    + change (String c (x +:+ s) = String d (y +:+ t)) in Heq.
      injection Heq as -> Heq. cbn in Hx, Hy.
      apply andb_true_iff in Hx as [_ Hx]. apply andb_true_iff in Hy as [_ Hy].
      destruct (IH y Hx Hy Hs Ht Heq) as [-> ->]. auto.
Qed.

Lemma start_bound_chars (o : pyobj) :
  string_forall int_char (start_bound o) = true.
Proof.
  destruct o as [|n| | | |]; try reflexivity.
  cbn. destruct (n =? 0); [reflexivity | apply decimal_chars].
Qed.

Lemma spec_bound_inj (a b : pyobj) :
  is_bound a = true -> is_bound b = true ->
  spec_bound a = spec_bound b -> a = b.
Proof.
  destruct a as [|n| | | |], b as [|m| | | |]; try discriminate;
    intros _ _; cbn; intros Heq.
  - reflexivity.
  - symmetry in Heq. destruct (decimal_nonempty m Heq).
  - destruct (decimal_nonempty n Heq).
  - f_equal. apply decimal_inj, Heq.
Qed.

Lemma start_bound_canon (a b : pyobj) (stop : pyobj) :
  is_bound a = true -> is_bound b = true ->
  start_bound a = start_bound b ->
  canon_term (PySlice a stop PyNone) = canon_term (PySlice b stop PyNone).
Proof.
  destruct a as [|n| | | |], b as [|m| | | |]; try discriminate;
    intros _ _; cbn; intros Heq; try reflexivity.
  - destruct (m =? 0); [reflexivity|].
    symmetry in Heq. destruct (decimal_nonempty m Heq).
  - destruct (n =? 0); [reflexivity|]. destruct (decimal_nonempty n Heq).
  - destruct (n =? 0), (m =? 0); try reflexivity.
    + symmetry in Heq. destruct (decimal_nonempty m Heq).
    + destruct (decimal_nonempty n Heq).
    + rewrite (decimal_inj n m Heq). reflexivity.
Qed.

(** Two valid terms with the same rendering agree up to [canon_term]. *)
Lemma design_term_inj (t t' : pyobj) :
  valid_term t = true -> valid_term t' = true ->
  design_term t = design_term t' -> canon_term t = canon_term t'.
Proof.
  destruct t as [|n| | |a b c|], t' as [|n'| | |a' b' c'|]; try discriminate;
    cbn [valid_term design_term].
  - intros _ _ Heq. rewrite (decimal_inj n n' Heq). reflexivity.
  - intros _ _ Heq. exfalso.
    rewrite <- (append_empty_r (decimal n)) in Heq.
    apply (append_split_unique int_char) in Heq as [_ Hrest];
      [discriminate Hrest | apply decimal_chars | apply start_bound_chars
      | exact I | reflexivity].
  - intros _ _ Heq. exfalso. symmetry in Heq.
    rewrite <- (append_empty_r (decimal n')) in Heq.
    apply (append_split_unique int_char) in Heq as [_ Hrest];
      [discriminate Hrest | apply decimal_chars | apply start_bound_chars
      | exact I | reflexivity].
  - rewrite !andb_true_iff. intros [[Ha Hb] _] [[Ha' Hb'] _] Heq.
    apply (append_split_unique int_char) in Heq as [Hstart Hstop];
      [| apply start_bound_chars | apply start_bound_chars
       | reflexivity | reflexivity].
    injection Hstop as Hstop.
    rewrite (spec_bound_inj b b' Hb Hb' Hstop).
    change (canon_term (PySlice a b' c)) with (canon_term (PySlice a b' PyNone)).
    change (canon_term (PySlice a' b' c')) with (canon_term (PySlice a' b' PyNone)).
    apply start_bound_canon; assumption.
Qed.

Lemma design_terms_inj (l1 l2 : list pyobj) :
  forallb valid_term l1 = true -> forallb valid_term l2 = true ->
  map design_term l1 = map design_term l2 ->
  map canon_term l1 = map canon_term l2.
Proof.
  revert l2. induction l1 as [|t l1 IH]; intros [|t' l2]; try discriminate;
    [reflexivity|].
  cbn [forallb map]. rewrite !andb_true_iff.
  intros [Ht Hl1] [Ht' Hl2] [= Hhead Htail].
  rewrite (design_term_inj t t' Ht Ht' Hhead), (IH l2 Hl1 Hl2 Htail).
  reflexivity.
Qed.

(** [", ".join] of a non-empty list: the first part, then nothing or a
    separator and the join of the rest. *)
Lemma join_cons (x : string) (xs : list string) :
  join ", " (x :: xs)
  = x +:+ match xs with [] => "" | _ => ", " +:+ join ", " xs end.
Proof. destruct xs; [symmetry; apply append_empty_r | reflexivity]. Qed.

Lemma join_comma_inj (xs ys : list string) :
  Forall (fun x => string_forall term_char x = true) xs ->
  Forall (fun y => string_forall term_char y = true) ys ->
  xs <> [] -> ys <> [] ->
  join ", " xs = join ", " ys -> xs = ys.
Proof.
  intros Hxs. revert ys.
  induction Hxs as [|x xs Hx Hxs IH]; intros ys Hys Hne Hne'; [congruence|].
  destruct Hys as [|y ys Hy Hys]; [congruence|].
  rewrite !join_cons. intros Heq.
  apply (append_split_unique term_char) in Heq as [-> Hrest];
    [| assumption | assumption
     | destruct xs; [exact I | reflexivity]
     | destruct ys; [exact I | reflexivity]].
  destruct xs as [|x' xs], ys as [|y' ys]; try discriminate Hrest;
    [reflexivity|].
  injection Hrest as Hrest. f_equal. apply IH; [assumption | | | assumption];
    discriminate.
Qed.

Lemma wire_term_nonempty (t : string) : wire_term t -> t <> "".
Proof.
  intros [i [ds Hne _ | ds _ _] | a b _ _]; [exact Hne | discriminate |].
  destruct a; discriminate.
Qed.

Lemma join_nonempty (x : string) (xs : list string) :
  x <> "" -> join ", " (x :: xs) <> "".
Proof. rewrite join_cons. destruct x; [congruence | discriminate]. Qed.

(** The encoding of a valid expression that is not a select-everything
    form and whose integers are within the limit: the renderings of its
    terms, none of them empty. *)
Lemma valid_expr_parts (e : pyobj) :
  valid_expr e = true -> ints_within_limit e = true ->
  select_everything e = false ->
  exists x xs,
    slice_to_string e = Ok (join ", " (x :: xs)) /\
    Forall wire_term (x :: xs) /\
    (existsb zero_stop (as_tuple e) = false ->
     x :: xs = map design_term (as_tuple e)).
Proof.
  intros Hv Hlimit Hs. rewrite (slice_to_string_spec e Hlimit), Hs.
  destruct (valid_expr_terms e Hv Hs) as [Hterms Hne].
  destruct (valid_terms_rendered _ Hterms) as [Hstep [xs [Hxs [Hlen [Hall Hd]]]]].
  rewrite Hstep, Hxs. destruct xs as [|x xs].
  - destruct (as_tuple e); [congruence | discriminate Hlen].
  - exists x, xs. auto.
Qed.

(** X10: a valid index expression in which no integer has more than
    4300 digits is encoded, and its wire string is empty exactly for the
    three select-everything forms [None], [()] and [slice(None)]; every
    other such expression, a tuple of full-open ranges included, gives a
    non-empty wire string. *)
Theorem slice_to_string_empty_iff (e : pyobj) :
  valid_expr e = true -> ints_within_limit e = true ->
  exists s,
    slice_to_string e = Ok s /\
    (s = "" <-> e = PyNone \/ e = PyTuple [] \/ e = slice_None) /\
    (e <> PyNone -> e <> PyTuple [] -> e <> slice_None -> s <> "").
Proof.
  intros Hv Hlimit. destruct (select_everything e) eqn:Hs.
  - exists "". split; [rewrite slice_to_string_parts, Hs; reflexivity|].
    apply select_everything_iff in Hs. split; [tauto|].
    intros H1 H2 H3. destruct Hs as [? | [? | ?]]; contradiction.
  - destruct (valid_expr_parts e Hv Hlimit Hs) as [x [xs [Hparts [Hall _]]]].
    exists (join ", " (x :: xs)). split; [exact Hparts|].
    assert (join ", " (x :: xs) <> "") as Hne.
    { apply join_nonempty, wire_term_nonempty. inversion Hall; assumption. }
    split; [|intros _ _ _; exact Hne].
    split; [intros Hempty; contradiction|].
    intros Hforms. apply select_everything_iff in Hforms. congruence.
Qed.

Lemma design_term_canon (t : pyobj) :
  valid_term t = true -> design_term (canon_term t) = design_term t.
Proof.
  destruct t as [|n| | |a b c|]; try discriminate; [reflexivity|].
  cbn [valid_term]. rewrite !andb_true_iff. intros [[Ha _] _].
  destruct a as [|n| | | |]; try discriminate Ha; [reflexivity|].
  cbn. destruct (n =? 0) eqn:Hn; cbn; [reflexivity|]. rewrite Hn. reflexivity.
Qed.

Lemma design_terms_canon (l : list pyobj) :
  forallb valid_term l = true ->
  map design_term (map canon_term l) = map design_term l.
Proof.
  induction l as [|t l IH]; [reflexivity|].
  cbn [forallb map]. rewrite andb_true_iff. intros [Ht Hl].
  rewrite (design_term_canon t Ht), (IH Hl). reflexivity.
Qed.

(** X11: the wire string determines the selection.  Two valid index
    expressions in which no integer has more than 4300 digits, neither a
    select-everything form nor with a stop bound 0, have the same
    encoding exactly when they have the same terms, axis by axis, up to
    what the wire string does not record: a start bound 0 counts as an
    open start, a step 1 as no step, and a single term as the tuple
    holding it. *)
Theorem slice_to_string_injective (e1 e2 : pyobj) :
  valid_expr e1 = true -> valid_expr e2 = true ->
  ints_within_limit e1 = true -> ints_within_limit e2 = true ->
  select_everything e1 = false -> select_everything e2 = false ->
  existsb zero_stop (as_tuple e1) = false ->
  existsb zero_stop (as_tuple e2) = false ->
  (slice_to_string e1 = slice_to_string e2 <->
   map canon_term (as_tuple e1) = map canon_term (as_tuple e2)).
Proof.
  intros Hv1 Hv2 Hl1 Hl2 Hs1 Hs2 Hz1 Hz2.
  destruct (valid_expr_parts e1 Hv1 Hl1 Hs1) as [x [xs [Henc1 [Hall1 Hd1]]]].
  destruct (valid_expr_parts e2 Hv2 Hl2 Hs2) as [y [ys [Henc2 [Hall2 Hd2]]]].
  destruct (valid_expr_terms e1 Hv1 Hs1) as [Hterms1 _].
  destruct (valid_expr_terms e2 Hv2 Hs2) as [Hterms2 _].
  split.
  - intros Heq.
    assert (join ", " (x :: xs) = join ", " (y :: ys)) as Hjoin by congruence.
    apply join_comma_inj in Hjoin; try discriminate.
    + apply design_terms_inj; [assumption | assumption|].
      rewrite <- (Hd1 Hz1), <- (Hd2 Hz2). exact Hjoin.
    + eapply Forall_impl; [exact Hall1 | apply wire_term_chars].
    + eapply Forall_impl; [exact Hall2 | apply wire_term_chars].
  - intros Hcanon. rewrite Henc1, Henc2, (Hd1 Hz1), (Hd2 Hz2).
    rewrite <- (design_terms_canon _ Hterms1), <- (design_terms_canon _ Hterms2).
    rewrite Hcanon. reflexivity.
Qed.

Lemma term_chars_wire_chars (t : string) :
  string_forall term_char t = true -> string_forall wire_char t = true.
Proof.
  induction t as [|c t IH]; [reflexivity|].
  cbn. rewrite !andb_true_iff. intros [Hc Ht].
  split; [|apply IH, Ht]. unfold wire_char. rewrite Hc. reflexivity.
Qed.

Lemma wire_terms_chars (s : string) :
  wire_terms s -> string_forall wire_char s = true.
Proof.
  induction 1 as [t Ht | t rest Ht Hrest IH].
  - apply term_chars_wire_chars, wire_term_chars, Ht.
  - rewrite !string_forall_app, IH.
    rewrite (term_chars_wire_chars t (wire_term_chars t Ht)). reflexivity.
Qed.

Lemma string_forall_join_elem (p : ascii -> bool) (xs : list string)
    (x : string) :
  In x xs -> string_forall p (join ", " xs) = true -> string_forall p x = true.
Proof.
  induction xs as [|y ys IH]; [contradiction|].
  rewrite join_cons, string_forall_app, andb_true_iff. intros Hin [Hy Hrest].
  destruct Hin as [-> | Hin]; [exact Hy|].
  destruct ys as [|z zs]; [contradiction|].
  rewrite !string_forall_app, !andb_true_iff in Hrest.
  apply IH; [exact Hin | apply Hrest].
Qed.

Lemma terms_parts_bool (terms : list pyobj) (b : bool) (parts : list string) :
  In (PyBool b) terms -> terms_parts terms = Ok parts ->
  In (if b then "True" else "False") parts.
Proof.
  revert parts. induction terms as [|t rest IH]; intros parts; [contradiction|].
  cbn [terms_parts]. intros Hin.
  destruct (term_part t) as [part|] eqn:Hpart; [|discriminate].
  destruct (terms_parts rest) as [more|]; [|discriminate].
  intros [= <-]. apply in_or_app. destruct Hin as [-> | Hin].
  - left. destruct b; injection Hpart as <-; left; reflexivity.
  - right. apply IH; [exact Hin | reflexivity].
Qed.

(** X12: a [bool] term passes the [isinstance(index, int)] test and is
    rendered by [str] as [True] or [False]: whenever an index expression
    with a [bool] term is encoded, the wire string contains that word and
    is no string of the wire grammar. *)
Theorem bool_term_outside_grammar (e : pyobj) (b : bool) (s : string) :
  In (PyBool b) (as_tuple e) ->
  slice_to_string e = Ok s ->
  (exists parts, s = join ", " parts /\
                 In (if b then "True" else "False") parts) /\
  wire_slice_stringb s = false.
Proof.
  intros Hin. rewrite slice_to_string_parts.
  destruct (select_everything e) eqn:Hs.
  { apply select_everything_iff in Hs as [-> | [-> | ->]];
      cbn in Hin; intuition discriminate. }
  destruct (terms_parts (as_tuple e)) as [parts|] eqn:Hparts; [|discriminate].
  intros [= <-].
  pose proof (terms_parts_bool _ _ _ Hin Hparts) as Hpart.
  split; [eauto|].
  destruct (wire_slice_stringb _) eqn:Hwire; [|reflexivity]. exfalso.
  apply wire_slice_stringb_spec in Hwire.
  assert (string_forall wire_char (join ", " parts) = true) as Hchars.
  { destruct Hwire as [-> | Hterms]; [reflexivity|].
    apply wire_terms_chars, Hterms. }
  apply (string_forall_join_elem _ _ _ Hpart) in Hchars.
  destruct b; discriminate Hchars.
Qed.

Lemma join_app (xs ys : list string) :
  xs <> [] -> ys <> [] ->
  join ", " (xs ++ ys) = join ", " xs +:+ ", " +:+ join ", " ys.
Proof.
  intros Hxs Hys. induction xs as [|x xs IH]; [congruence|].
  destruct xs as [|x' xs].
  - destruct ys; [congruence | reflexivity].
  - change (x +:+ ", " +:+ join ", " ((x' :: xs) ++ ys)
            = (x +:+ ", " +:+ join ", " (x' :: xs)) +:+ ", " +:+ join ", " ys).
    rewrite IH by discriminate. rewrite !append_assoc. reflexivity.
Qed.

(** X13: the axes are encoded independently and in order: for two
    non-empty tuples of valid terms in which no integer has more than
    4300 digits, the encoding of their concatenation is the encoding of
    the first, the separator [", "], and the encoding of the second. *)
Theorem slice_to_string_app (l1 l2 : list pyobj) :
  forallb valid_term l1 = true -> forallb valid_term l2 = true ->
  forallb ints_within_limit l1 = true -> forallb ints_within_limit l2 = true ->
  l1 <> [] -> l2 <> [] ->
  exists s1 s2,
    slice_to_string (PyTuple l1) = Ok s1 /\
    slice_to_string (PyTuple l2) = Ok s2 /\
    slice_to_string (PyTuple (l1 ++ l2)) = Ok (s1 +:+ ", " +:+ s2).
Proof.
  intros Hv1 Hv2 Hl1 Hl2 Hne1 Hne2.
  destruct (valid_terms_rendered l1 Hv1) as [Hstep1 [xs [Hxs [Hlen1 _]]]].
  destruct (valid_terms_rendered l2 Hv2) as [Hstep2 [ys [Hys [Hlen2 _]]]].
  exists (join ", " xs), (join ", " ys).
  rewrite !slice_to_string_parts. cbn [as_tuple].
  rewrite (terms_parts_spec l1 Hl1), (terms_parts_spec l2 Hl2).
  rewrite (terms_parts_spec (l1 ++ l2))
    by (rewrite forallb_app, Hl1, Hl2; reflexivity).
  rewrite existsb_app, map_app, concat_app, Hstep1, Hstep2, Hxs, Hys.
  assert (forall l, l <> [] -> select_everything (PyTuple l) = false) as Hsel.
  { intros [|t l] Hl; [congruence | reflexivity]. }
  rewrite (Hsel l1 Hne1), (Hsel l2 Hne2).
  rewrite (Hsel (l1 ++ l2)) by (destruct l1; [congruence | discriminate]).
  cbn [orb]. repeat split. f_equal. apply join_app.
  - destruct xs; [|discriminate]. destruct l1; [congruence | discriminate Hlen1].
  - destruct ys; [|discriminate]. destruct l2; [congruence | discriminate Hlen2].
Qed.

(** ** Concrete runs for the further properties *)

Lemma fetch_data_frame_witness :
  fetch_data (net := constant_server 200 [Byte.x01; Byte.x07; Byte.x08] JNull)
    (engine := stub_blosc2) "root/a.b2nd" "http://host/"
    (Some {["slice_" := "1:3"]}) (Some "token") []
  = (Ok (Decompressed (engine := stub_blosc2) [Byte.x07; Byte.x08]),
     [] ++ [mkRequest ("http://host/" +:+ "api/fetch/" +:+ "root/a.b2nd")
              (Some {["slice_" := "1:3"]}) (cookie_headers (Some "token")) 15]).
Proof.
  apply (fetch_data_frame
           (net := constant_server 200 [Byte.x01; Byte.x07; Byte.x08] JNull)
           (engine := stub_blosc2) "root/a.b2nd" "http://host/"
           (Some {["slice_" := "1:3"]}) (Some "token") []
           (mkStubResponse 200 [Byte.x01; Byte.x07; Byte.x08] (Ok JNull))
           [Byte.x07; Byte.x08]);
    reflexivity.
Defined.

Lemma fetch_data_uncaught_witness :
  ndarray_from_cframe (Blosc2 := type_error_blosc2) container_payload
  = Ok (mkStubArray [5] [10; 20; 30; 40; 50]) /\
  fetch_data (net := container_server) (engine := type_error_blosc2)
    "root/a.b2nd" "http://host/" (Some {["slice_" := ""]}) None []
  = (Raise (mkExn TypeError "a bytes-like object is required"),
     [] ++ [mkRequest ("http://host/" +:+ "api/fetch/" +:+ "root/a.b2nd")
              (Some {["slice_" := ""]}) (cookie_headers None) 15]).
Proof.
  split; [reflexivity|].
  apply (fetch_data_uncaught
           (net := container_server) (engine := type_error_blosc2)
           "root/a.b2nd" "http://host/" (Some {["slice_" := ""]}) None []
           (mkStubResponse 200 container_payload (Ok JNull))
           (mkExn TypeError "a bytes-like object is required"));
    reflexivity.
Defined.

Lemma accessor_returns_field_witness :
  C2Array.shape (stub_handle, []) = (Ok [JNum 5], (stub_handle, [])) /\
  C2Array.chunks (stub_handle, []) = (Ok [JNum 5], (stub_handle, [])) /\
  C2Array.blocks (stub_handle, []) = (Ok [JNum 5], (stub_handle, [])) /\
  C2Array.ext_shape (stub_handle, []) = (Ok [JNum 5], (stub_handle, [])) /\
  C2Array.dtype (stub_handle, []) = (Ok (JStr "uint8"), (stub_handle, [])).
Proof.
  destruct (accessor_returns_field stub_handle []
              [("shape", JArr [JNum 5]); ("chunks", JArr [JNum 5]);
               ("blocks", JArr [JNum 5]); ("dtype", JStr "uint8");
               ("ext_shape", JArr [JNum 5])] eq_refl)
    as [Hshape [Hchunks [Hblocks [Hext Hdtype]]]].
  - apply (bool_decide_unpack _). vm_compute. exact I.
  - split; [apply (Hshape (JArr [JNum 5])); cbn; tauto|].
    split; [apply (Hchunks (JArr [JNum 5])); cbn; tauto|].
    split; [apply (Hblocks (JArr [JNum 5])); cbn; tauto|].
    split; [apply (Hext (JArr [JNum 5])); cbn; tauto|].
    apply (Hdtype (JStr "uint8")); cbn; tauto.
Defined.

Lemma accessor_raises_key_or_type_error_witness :
  accessor_error (JObj []) "shape" (mkExn KeyError "shape") /\
  accessor_error JNull "dtype" (mkExn TypeError "object is not subscriptable").
Proof.
  split.
  - apply (accessor_raises_key_or_type_error
             (C2Array.mk "root/a.b2nd" "http://host/" None (JObj [])) []
             (mkExn KeyError "shape")).
    reflexivity.
  - apply (accessor_raises_key_or_type_error
             (C2Array.mk "root/a.b2nd" "http://host/" None JNull) []
             (mkExn TypeError "object is not subscriptable")).
    reflexivity.
Defined.

Lemma slice_to_string_empty_iff_witness :
  exists s,
    slice_to_string (PyTuple [slice_None]) = Ok s /\
    (s = "" <->
     PyTuple [slice_None] = PyNone \/ PyTuple [slice_None] = PyTuple [] \/
     PyTuple [slice_None] = slice_None) /\
    (PyTuple [slice_None] <> PyNone -> PyTuple [slice_None] <> PyTuple [] ->
     PyTuple [slice_None] <> slice_None -> s <> "").
Proof.
  apply (slice_to_string_empty_iff (PyTuple [slice_None])); reflexivity.
Defined.

Example slice_to_string_open_range_in_tuple :
  slice_to_string (PyTuple [slice_None]) = Ok ":" /\
  slice_to_string (PyTuple [slice_None; slice_None]) = Ok ":, :".
Proof. split; reflexivity. Qed.

Lemma slice_to_string_injective_witness :
  slice_to_string (slice2 (PyInt 0) (PyInt 5))
  = slice_to_string (PyTuple [PySlice PyNone (PyInt 5) (PyInt 1)]) <->
  map canon_term (as_tuple (slice2 (PyInt 0) (PyInt 5)))
  = map canon_term (as_tuple (PyTuple [PySlice PyNone (PyInt 5) (PyInt 1)])).
Proof.
  apply (slice_to_string_injective (slice2 (PyInt 0) (PyInt 5))
           (PyTuple [PySlice PyNone (PyInt 5) (PyInt 1)]));
    reflexivity.
Defined.

Lemma bool_term_outside_grammar_witness :
  (exists parts, "1, True" = join ", " parts /\ In "True" parts) /\
  wire_slice_stringb "1, True" = false.
Proof.
  apply (bool_term_outside_grammar (PyTuple [PyInt 1; PyBool true]) true
           "1, True").
  - cbn. tauto.
  - reflexivity.
Defined.

Lemma slice_to_string_app_witness :
  exists s1 s2,
    slice_to_string (PyTuple [PyInt 1]) = Ok s1 /\
    slice_to_string (PyTuple [slice2 (PyInt 2) (PyInt 4)]) = Ok s2 /\
    slice_to_string (PyTuple ([PyInt 1] ++ [slice2 (PyInt 2) (PyInt 4)]))
    = Ok (s1 +:+ ", " +:+ s2).
Proof.
  apply (slice_to_string_app [PyInt 1] [slice2 (PyInt 2) (PyInt 4)]);
    try reflexivity; discriminate.
Defined.
